(** * Trucking operations retrieval layer: a shallow embedding

    This development models the Python sources of the trucking retrieval
    layer:
    - [MCP/operations/cosmos_store.py]: [TruckingOperationsStore], the
      record store client over a Cosmos DB container;
    - [MCP/operations/app.py]: the three MCP tool functions (the facade);
    - [data_generator/search_index.py]: [TruckingSearchIndex], the hybrid
      keyword and vector search wrapper, and its [EmbeddingClient];
    - [data_generator/cosmos_store.py]: [CosmosStore], the generator's
      writer into the container;
    - [data_generator/generate.py]: the synthetic data and RAG document
      generator and its [main].

    The external services (Cosmos DB, Azure AI Search, Azure OpenAI) are
    modelled as explicit world states and outcomes handed to each call. *)

From Stdlib Require Import List String Bool Arith Lia.
From stdpp Require Import base gmap strings list pretty.
Import ListNotations.
Open Scope string_scope.
Set Warnings "-register-all".

(* ================================================================= *)
(** ** Python values shared by every module *)

(** A raised Python exception: its class name, whether the class derives
    from [Exception] (as opposed to a [BaseException]-only class such as
    [asyncio.CancelledError] or [KeyboardInterrupt]), and its message. *)
Record py_exc := PyExc {
  exc_class : string;
  exc_is_Exception : bool;
  exc_message : string
}.

(** Outcome of a Python call: a returned value or a raised exception. *)
Inductive result (A : Type) :=
| Ok (a : A)
| Raise (e : py_exc).
Arguments Ok {A} a.
Arguments Raise {A} e.

(** JSON scalar and array values as stored in the document collection. *)
Inductive jvalue :=
| JStr (s : string)
| JNum (z : Z)
| JBool (b : bool)
| JNull
| JArr (l : list jvalue).

(** A schemaless document: a mapping from field names to values
    ([Dict[str, Any]] in the source). *)
Abbreviation record := (gmap string jvalue).

(** Cosmos SQL [c.f = 'v'] for a string literal or string parameter:
    true exactly when the field is present and holds that string; an
    absent field or a value of another JSON type makes the comparison
    undefined, and the document is not returned. *)
Definition field_eq_str (c : record) (f v : string) : bool :=
  match c !! f with
  | Some (JStr s) => String.eqb s v
  | _ => false
  end.


(* ================================================================= *)
(** ** [MCP/operations/cosmos_store.py]: the record store client *)

Module CosmosStore.

(** The three queries are conjunctions of equalities
    [c.f = 'literal'] or [c.f = @param] in a [SELECT * FROM c WHERE ...]. *)
Inductive sql_operand :=
| Lit (s : string)
| Param (name : string).

Record sql_query := SqlQuery {
  q_where : list (string * sql_operand);
  q_params : list (string * string)
}.

Definition eval_operand (params : list (string * string)) (o : sql_operand)
  : option string :=
  match o with
  | Lit s => Some s
  | Param n =>
      match List.find (fun p => String.eqb (fst p) n) params with
      | Some (_, v) => Some v
      | None => None
      end
  end.

(** A document matches when every conjunct holds. *)
Definition matches (q : sql_query) (c : record) : bool :=
  forallb (fun fo =>
    match eval_operand (q_params q) (snd fo) with
    | Some v => field_eq_str c (fst fo) v
    | None => false
    end) (q_where q).

(** The state of the managed document store as one call sees it: the
    documents of the container in storage return order, and whether the
    client constructor or the query raises (transport, auth or
    configuration failures of the service). *)
Record world := World {
  w_items : list record;
  w_ctor_fault : option py_exc;
  w_query_fault : option py_exc
}.

(** Observable effects on the outside world. *)
Inductive event :=
| ECredential (h : nat)                  (* DefaultAzureCredential() *)
| EClient (h : nat)                      (* CosmosClient(...) *)
| EContainer (h : nat)                   (* get_container_client(...) *)
| EQuery (container : nat) (q : sql_query).

(** The attributes of a [TruckingOperationsStore] object; handles are
    identified by fresh numbers, [s_next] is the next fresh one, and
    [s_trace] records the effects issued so far (newest first). *)
Record store := Store {
  s_endpoint : string;
  s_db_name : string;
  s_container_name : string;
  s_client : option nat;
  s_container : option nat;
  s_credential : option nat;
  s_next : nat;
  s_trace : list event
}.

(** A state and exception monad over the store object. *)
Definition M (A : Type) : Type := store -> result A * store.

Global Instance M_ret : MRet M := fun A a s => (Ok a, s).
Global Instance M_bind : MBind M := fun A B k m s =>
  match m s with
  | (Ok a, s') => k a s'
  | (Raise e, s') => (Raise e, s')
  end.

Definition raise {A} (e : py_exc) : M A := fun s => (Raise e, s).
Definition get : M store := fun s => (Ok s, s).
Definition put (s : store) : M unit := fun _ => (Ok tt, s).

Definition emit (ev : event) : M unit :=
  fun s => (Ok tt, Store (s_endpoint s) (s_db_name s) (s_container_name s)
                        (s_client s) (s_container s) (s_credential s)
                        (s_next s) (ev :: s_trace s)).

Definition fresh : M nat :=
  fun s => (Ok (s_next s),
            Store (s_endpoint s) (s_db_name s) (s_container_name s)
                  (s_client s) (s_container s) (s_credential s)
                  (S (s_next s)) (s_trace s)).

Definition set_credential (h : nat) : M unit :=
  fun s => (Ok tt, Store (s_endpoint s) (s_db_name s) (s_container_name s)
                        (s_client s) (s_container s) (Some h)
                        (s_next s) (s_trace s)).

Definition set_client_container (cl co : nat) : M unit :=
  fun s => (Ok tt, Store (s_endpoint s) (s_db_name s) (s_container_name s)
                        (Some cl) (Some co) (s_credential s)
                        (s_next s) (s_trace s)).

(** [self._container.query_items(query=..., parameters=...)], drained by
    the [async for]: the matching documents in storage order. *)
Definition query_items (w : world) (container : nat) (q : sql_query)
  : M (list record) :=
  emit (EQuery container q) ;;
  match w_query_fault w with
  | Some e => raise e
  | None => mret (List.filter (matches q) (w_items w))
  end.

(** [_ensure_container]: the client is built only when [self._client is
    None]; [self._client] is assigned only once [CosmosClient(...)] has
    returned, so a raising constructor leaves it [None]. *)
Definition _ensure_container (w : world) : M unit :=
  s ← get;
  match s_client s with
  | Some _ => mret tt
  | None =>
      cred ← fresh; emit (ECredential cred) ;; set_credential cred ;;
      match w_ctor_fault w with
      | Some e => raise e
      | None =>
          cl ← fresh; emit (EClient cl) ;;
          co ← fresh; emit (EContainer co) ;;
          set_client_container cl co
      end
  end.

(** [self._container.query_items(...)] on the current attribute; a
    [None] container would raise [AttributeError]. *)
Definition run_query (w : world) (q : sql_query) : M (list record) :=
  s ← get;
  match s_container s with
  | Some co => query_items w co q
  | None => raise (PyExc "AttributeError" true
                     "'NoneType' object has no attribute 'query_items'")
  end.

(** [SELECT * FROM c WHERE c.load_id = @load_id] *)
Definition load_context_query (load_id : string) : sql_query :=
  SqlQuery [("load_id", Param "@load_id")] [("@load_id", load_id)].

(** [SELECT * FROM c WHERE c.type = 'exception' AND c.load_id = @load_id] *)
Definition exceptions_query (load_id : string) : sql_query :=
  SqlQuery [("type", Lit "exception"); ("load_id", Param "@load_id")]
           [("@load_id", load_id)].

(** [SELECT * FROM c WHERE c.type = 'exception'
       AND c.exception_type = @exception_type] *)
Definition exceptions_by_type_query (exception_type : string) : sql_query :=
  SqlQuery [("type", Lit "exception");
            ("exception_type", Param "@exception_type")]
           [("@exception_type", exception_type)].

Definition get_load_context (w : world) (load_id : string) : M (list record) :=
  _ensure_container w ;; run_query w (load_context_query load_id).

Definition get_exceptions (w : world) (load_id : string) : M (list record) :=
  _ensure_container w ;; run_query w (exceptions_query load_id).

Definition get_exceptions_by_type (w : world) (exception_type : string)
  : M (list record) :=
  _ensure_container w ;; run_query w (exceptions_by_type_query exception_type).

(** [__init__]: reads the three settings ([os.getenv] gives [None] for an
    unset variable); a value is missing when it is falsy ([None] or
    [""]). *)
Definition falsy (v : option string) : bool :=
  match v with
  | None => true
  | Some s => String.eqb s ""
  end.

Definition value_of (v : option string) : string :=
  match v with Some s => s | None => "" end.

Definition missing_names (env : string -> option string) : list string :=
  map fst (List.filter (fun nv => falsy (snd nv))
    [("COSMOS_ENDPOINT", env "COSMOS_ENDPOINT");
     ("COSMOS_DATABASE", env "COSMOS_DATABASE");
     ("COSMOS_CONTAINER", env "COSMOS_CONTAINER")]).

Definition __init__ (env : string -> option string) : result store :=
  let ep := env "COSMOS_ENDPOINT" in
  let db := env "COSMOS_DATABASE" in
  let co := env "COSMOS_CONTAINER" in
  if falsy ep || falsy db || falsy co then
    Raise (PyExc "ValueError" true
      ("Missing environment variables: " ++
       String.concat ", " (missing_names env)))
  else Ok (Store (value_of ep) (value_of db) (value_of co)
                 None None None 0 []).

(** A store object whose client, once set, comes with its container: every
    object built by [__init__] and updated by the methods is one. *)
Definition store_wf (s : store) : Prop :=
  s_client s <> None -> s_container s <> None.

(** A sequence of method calls on one object, each seeing the service
    in its own state; a raising call leaves the object as it was when the
    exception left the method, and the next call proceeds from there. *)
Inductive store_call :=
| CLoadContext (load_id : string)
| CExceptions (load_id : string)
| CExceptionsByType (exception_type : string).

Definition run_call (c : store_call) (w : world) : M (list record) :=
  match c with
  | CLoadContext x => get_load_context w x
  | CExceptions x => get_exceptions w x
  | CExceptionsByType t => get_exceptions_by_type w t
  end.

Fixpoint run_calls (cs : list (store_call * world)) (s : store) : store :=
  match cs with
  | [] => s
  | (c, w) :: cs' => run_calls cs' (snd (run_call c w s))
  end.

Definition is_client (ev : event) : bool :=
  match ev with EClient _ => true | _ => false end.

Definition is_container (ev : event) : bool :=
  match ev with EContainer _ => true | _ => false end.

Definition clients_built (tr : list event) : nat :=
  length (List.filter is_client tr).

Definition containers_built (tr : list event) : nat :=
  length (List.filter is_container tr).

End CosmosStore.

(* ================================================================= *)
(** ** [MCP/operations/app.py]: the three MCP tools *)

Module Facade.
Import CosmosStore.

(** [try: results = await store.<op>(...); return results
     except Exception as exc: logger.error(...); return []].
    Only exceptions whose class derives from [Exception] are caught; the
    log lines have no effect on the result and are not modelled. *)
Definition try_except_empty (m : M (list record)) : M (list record) :=
  fun s =>
    match m s with
    | (Ok r, s') => (Ok r, s')
    | (Raise e, s') =>
        if exc_is_Exception e then (Ok [], s') else (Raise e, s')
    end.

Definition get_load_context (w : world) (load_id : string) : M (list record) :=
  try_except_empty (CosmosStore.get_load_context w load_id).

Definition get_load_exceptions (w : world) (load_id : string)
  : M (list record) :=
  try_except_empty (CosmosStore.get_exceptions w load_id).

Definition get_exceptions_by_type (w : world) (exception_type : string)
  : M (list record) :=
  try_except_empty (CosmosStore.get_exceptions_by_type w exception_type).

(** The three tools and the store method each delegates to. *)
Inductive tool := TLoadContext | TLoadExceptions | TExceptionsByType.

Definition tool_call (t : tool) : world -> string -> M (list record) :=
  match t with
  | TLoadContext => get_load_context
  | TLoadExceptions => get_load_exceptions
  | TExceptionsByType => get_exceptions_by_type
  end.

Definition store_call (t : tool) : world -> string -> M (list record) :=
  match t with
  | TLoadContext => CosmosStore.get_load_context
  | TLoadExceptions => CosmosStore.get_exceptions
  | TExceptionsByType => CosmosStore.get_exceptions_by_type
  end.

End Facade.

(* ================================================================= *)
(** ** [data_generator/search_index.py]: [TruckingSearchIndex] *)

Module SearchIndex.

(** A single-precision or double-precision value is only passed through
    by this code (embeddings, relevance scores); it is kept as its bit
    pattern. *)
Record float := Float { float_bits : Z }.

(** The schema passed to [SearchIndex(name=..., fields=...,
    vector_search=...)]. *)
Record field_def := FieldDef {
  fd_name : string;
  fd_type : string;
  fd_key : bool;
  fd_filterable : bool;
  fd_sortable : bool;
  fd_analyzer : option string;
  fd_dimensions : option nat;
  fd_profile : option string
}.

Record index_schema := IndexSchema {
  ix_name : string;
  ix_fields : list field_def;
  ix_algorithm : string;          (* "hnsw-config", HNSW, cosine *)
  ix_profile : string;            (* "vector-profile" *)
  ix_vectorizer : string;         (* "my-vectorizer" *)
  ix_resource_url : string;
  ix_deployment : string;
  ix_resource_id : string
}.

Definition VECTOR_DIMENSIONS : nat := 3072.

(** A document handed to [upload_documents], with the enriched form that
    is uploaded. *)
Record doc := Doc {
  d_id : string;
  d_doc_type : string;
  d_load_id : string;
  d_content : string
}.

Record enriched_doc := EnrichedDoc {
  e_id : string;
  e_doc_type : string;
  e_load_id : string;
  e_content : string;
  e_content_vector : list float
}.

(** The argument of [search_client.search(...)]. *)
Record vector_query := VectorQuery {
  vq_vector : list float;
  vq_k : Z;
  vq_fields : string
}.

Record search_request := SearchRequest {
  sr_search_text : string;
  sr_filter : option string;
  sr_vector_queries : list vector_query;
  sr_top : Z
}.

(** A result row of the search service, and the projected row returned
    by [search]. *)
Record hit := Hit {
  h_id : string;
  h_doc_type : string;
  h_load_id : option string;
  h_content : string;
  h_score : float
}.

Record search_row := SearchRow {
  r_id : string;
  r_doc_type : string;
  r_load_id : option string;
  r_content : string;
  r_score : float
}.

(** Requests issued to Azure AI Search and Azure OpenAI. *)
Inductive event :=
| EListIndexes
| ECreateIndex (ix : index_schema)
| ECreateRejected (name : string)
| EEmbed (texts : list string)
| EUpload (docs : list enriched_doc)
| ESearch (req : search_request).

(** The service as this object sees it: the names of the existing
    indexes and the requests issued so far (newest first). *)
Record service := Service {
  sv_indexes : list string;
  sv_trace : list event
}.

Definition log (ev : event) (sv : service) : service :=
  Service (sv_indexes sv) (ev :: sv_trace sv).

(** [os.environ[k]]: [KeyError] when unset. *)
Definition environ (env : string -> option string) (k : string)
  : result string :=
  match env k with
  | Some v => Ok v
  | None => Raise (PyExc "KeyError" true k)
  end.

Definition schema (index_name url deployment resource_id : string)
  : index_schema :=
  IndexSchema index_name
    [FieldDef "id" "Edm.String" true false false None None None;
     FieldDef "doc_type" "Edm.String" false true true None None None;
     FieldDef "load_id" "Edm.String" false true false None None None;
     FieldDef "content" "Edm.String" false false false (Some "en.lucene")
       None None;
     FieldDef "content_vector" "Collection(Edm.Single)" false false false
       None (Some VECTOR_DIMENSIONS) (Some "vector-profile")]
    "hnsw-config" "vector-profile" "my-vectorizer"
    url deployment resource_id.

(** [create_index_if_not_exists]. [create_fault] is the service's answer
    to [create_index]: [None] when the index is created, [Some e] when
    the request raises [e]. *)
Definition create_index_if_not_exists (env : string -> option string)
    (index_name : string) (create_fault : option py_exc) (sv : service)
  : result unit * service :=
  let sv1 := log EListIndexes sv in
  if existsb (String.eqb index_name) (sv_indexes sv) then (Ok tt, sv1)
  else
    match environ env "AZURE_OPENAI_ENDPOINT",
          environ env "AZURE_OPENAI_EMBEDDING_DEPLOYMENT",
          environ env "AZURE_CLIENT_RESOURCE_ID" with
    | Raise e, _, _ | _, Raise e, _ | _, _, Raise e => (Raise e, sv1)
    | Ok url, Ok dep, Ok rid =>
        match create_fault with
        | Some e => (Raise e, log (ECreateRejected index_name) sv1)
        | None =>
            (Ok tt, Service (index_name :: sv_indexes sv1)
                            (ECreateIndex (schema index_name url dep rid)
                               :: sv_trace sv1))
        end
    end.

Definition enrich (d : doc) (vector : list float) : enriched_doc :=
  EnrichedDoc (d_id d) (d_doc_type d) (d_load_id d) (d_content d) vector.

(** Python's [zip]: stops at the shorter input. *)
Fixpoint zip_enrich (ds : list doc) (vs : list (list float))
  : list enriched_doc :=
  match ds, vs with
  | d :: ds', v :: vs' => enrich d v :: zip_enrich ds' vs'
  | _, _ => []
  end.

Definition upload_error (n : nat) : py_exc :=
  PyExc "RuntimeError" true
    ("❌ Failed to index " ++ pretty n ++ " documents").

(** [upload_documents]. [embed_out] is the answer of
    [self.embedder.embed(texts)] and [upload_out] the answer of
    [self.search_client.upload_documents(...)]: one [succeeded] flag per
    uploaded document, or a raised exception. *)
Definition upload_documents (documents : list doc)
    (embed_out : result (list (list float)))
    (upload_out : result (list bool)) (sv : service)
  : result unit * service :=
  match documents with
  | [] => (Ok tt, sv)
  | _ =>
      let texts := map d_content documents in
      let sv1 := log (EEmbed texts) sv in
      match embed_out with
      | Raise e => (Raise e, sv1)
      | Ok embeddings =>
          let enriched_docs := zip_enrich documents embeddings in
          let sv2 := log (EUpload enriched_docs) sv1 in
          match upload_out with
          | Raise e => (Raise e, sv2)
          | Ok result =>
              let failed := List.filter negb result in
              match failed with
              | [] => (Ok tt, sv2)
              | _ => (Raise (upload_error (length failed)), sv2)
              end
          end
      end
  end.

(** [f"load_id eq '{load_id}'" if load_id else None]: a falsy [load_id]
    ([None] or [""]) gives no filter. *)
Definition filter_expr (load_id : option string) : option string :=
  match load_id with
  | Some s => if String.eqb s "" then None
              else Some ("load_id eq '" ++ s ++ "'")
  | None => None
  end.

Definition project (r : hit) : search_row :=
  SearchRow (h_id r) (h_doc_type r) (h_load_id r) (h_content r) (h_score r).

(** [search]. [embed_out] answers [self.embedder.embed([query])] and
    [search_out] answers [self.search_client.search(...)]. *)
Definition search (query : string) (load_id : option string) (top : Z)
    (embed_out : result (list (list float)))
    (search_out : result (list hit)) (sv : service)
  : result (list search_row) * service :=
  let sv1 := log (EEmbed [query]) sv in
  match embed_out with
  | Raise e => (Raise e, sv1)
  | Ok [] => (Raise (PyExc "IndexError" true "list index out of range"), sv1)
  | Ok (query_vector :: _) =>
      let req := SearchRequest query (filter_expr load_id)
                   [VectorQuery query_vector top "content_vector"] top in
      let sv2 := log (ESearch req) sv1 in
      match search_out with
      | Raise e => (Raise e, sv2)
      | Ok results => (Ok (map project results), sv2)
      end
  end.

Definition is_create (ev : event) : bool :=
  match ev with ECreateIndex _ => true | _ => false end.

(** Number of indexes created by the requests of a trace. *)
Definition created (tr : list event) : nat :=
  length (List.filter is_create tr).

End SearchIndex.

(* ================================================================= *)
(** ** [data_generator/search_index.py]: the two constructors *)

Module SearchClients.
Import SearchIndex.

(** A fallible step of a constructor, in the [result] monad. *)
#[local] Instance result_ret : MRet result := fun A a => Ok a.
#[local] Instance result_bind : MBind result := fun A B k m =>
  match m with
  | Ok a => k a
  | Raise e => Raise e
  end.

(** The SDK constructors ([AzureOpenAI], [AzureKeyCredential],
    [SearchIndexClient], [SearchClient]) send no request; whether one of
    them raises on its arguments is left to the caller: [sdk_fault c] is
    what constructor [c] raises, if anything. *)
Definition sdk_call (sdk_fault : string -> option py_exc) (c : string)
  : result unit :=
  match sdk_fault c with
  | Some e => Raise e
  | None => Ok tt
  end.

Record embedding_client := EmbeddingClient {
  ec_azure_endpoint : string;
  ec_api_key : string;
  ec_deployment : string
}.

(** [EmbeddingClient.__init__]: the keyword arguments of [AzureOpenAI(...)]
    are evaluated left to right before the call; [self.deployment] is read
    afterwards. *)
Definition EmbeddingClient_init (env : string -> option string)
    (sdk_fault : string -> option py_exc) : result embedding_client :=
  azure_endpoint ← environ env "AZURE_OPENAI_ENDPOINT";
  api_key ← environ env "AZURE_OPENAI_API_KEY";
  sdk_call sdk_fault "AzureOpenAI" ;;
  deployment ← environ env "AZURE_OPENAI_EMBEDDING_DEPLOYMENT";
  mret (EmbeddingClient azure_endpoint api_key deployment).

Record trucking_search_index := TruckingSearchIndex {
  ti_endpoint : string;
  ti_index_name : string;
  ti_api_key : string;
  ti_embedder : embedding_client
}.

(** [TruckingSearchIndex.__init__]. *)
Definition TruckingSearchIndex_init (env : string -> option string)
    (sdk_fault : string -> option py_exc) : result trucking_search_index :=
  endpoint ← environ env "SEARCH_ENDPOINT";
  index_name ← environ env "SEARCH_INDEX";
  api_key ← environ env "SEARCH_API_KEY";
  sdk_call sdk_fault "AzureKeyCredential" ;;
  sdk_call sdk_fault "SearchIndexClient" ;;
  sdk_call sdk_fault "SearchClient" ;;
  embedder ← EmbeddingClient_init env sdk_fault;
  mret (TruckingSearchIndex endpoint index_name api_key embedder).

End SearchClients.

(* ================================================================= *)
(** ** [data_generator/cosmos_store.py]: [CosmosStore] *)

Module DataCosmos.
Import SearchIndex SearchClients.

#[local] Instance result_ret : MRet result := fun A a => Ok a.
#[local] Instance result_bind : MBind result := fun A B k m =>
  match m with
  | Ok a => k a
  | Raise e => Raise e
  end.

Record cosmos_store := CosmosStoreObj {
  cs_endpoint : string;
  cs_database_name : string;
  cs_container_name : string
}.

(** [CosmosStore.__init__]: the three settings through [os.environ[...]],
    then [DefaultAzureCredential()] (an argument, so evaluated before the
    client), [CosmosClient(...)], [create_database_if_not_exists] and
    [create_container_if_not_exists] (partition key [/load_id]); what the
    SDK and the service raise for the last four is [sdk_fault]. *)
Definition __init__ (env : string -> option string)
    (sdk_fault : string -> option py_exc) : result cosmos_store :=
  endpoint ← environ env "COSMOS_ENDPOINT";
  database_name ← environ env "COSMOS_DATABASE";
  container_name ← environ env "COSMOS_CONTAINER";
  sdk_call sdk_fault "DefaultAzureCredential" ;;
  sdk_call sdk_fault "CosmosClient" ;;
  sdk_call sdk_fault "create_database_if_not_exists" ;;
  sdk_call sdk_fault "create_container_if_not_exists" ;;
  mret (CosmosStoreObj endpoint database_name container_name).

(** Equality of JSON values. *)
Fixpoint jvalue_eqb (a b : jvalue) {struct a} : bool :=
  match a, b with
  | JStr x, JStr y => String.eqb x y
  | JNum x, JNum y => Z.eqb x y
  | JBool x, JBool y => Bool.eqb x y
  | JNull, JNull => true
  | JArr xs, JArr ys =>
      (fix go (xs ys : list jvalue) : bool :=
         match xs, ys with
         | [], [] => true
         | x :: xs', y :: ys' => jvalue_eqb x y && go xs' ys'
         | _, _ => false
         end) xs ys
  | _, _ => false
  end.

Definition opt_jvalue_eqb (a b : option jvalue) : bool :=
  match a, b with
  | Some x, Some y => jvalue_eqb x y
  | None, None => true
  | _, _ => false
  end.

(** Cosmos DB identifies an item by its ["id"] within its logical
    partition, the value of the partition key path [/load_id] (absent for
    the trucks and drivers). *)
Definition same_item (a b : record) : bool :=
  opt_jvalue_eqb (a !! "id") (b !! "id") &&
  opt_jvalue_eqb (a !! "load_id") (b !! "load_id").

(** [container.upsert_item(item)] on the container's items in storage
    order: an item with the same identity is replaced where it is,
    otherwise the item is added. *)
Fixpoint upsert_item (items : list record) (item : record) : list record :=
  match items with
  | [] => [item]
  | x :: xs => if same_item x item then item :: xs
               else x :: upsert_item xs item
  end.

(** [upsert_items(items)]: [for item in items: upsert_item(item)], each
    upsert accepted by the service. *)
Definition upsert_items (container : list record) (items : list record)
  : list record :=
  fold_left upsert_item items container.

End DataCosmos.

(* ================================================================= *)
(** ** [data_generator/generate.py]: the synthetic dataset *)

Module Generator.
Import SearchIndex.

(** Python's [random] module as this script uses it: [_randbelow(n)]
    (for [n > 0], a value in [[0, n)]) and [random()] (a double in
    [[0, 1)]), each advancing the generator state. The Mersenne Twister
    itself is not modelled: the state type and both functions are left
    to the caller. *)
Class PyRandom (g : Type) := {
  _randbelow : g -> N -> N * g;
  random : g -> float * g
}.

(** A state and exception monad over the generator state. *)
Definition G (g A : Type) : Type := g -> result A * g.

#[local] Instance G_ret {g} : MRet (G g) := fun A a st => (Ok a, st).
#[local] Instance G_bind {g} : MBind (G g) := fun A B k m st =>
  match m st with
  | (Ok a, st') => k a st'
  | (Raise e, st') => (Raise e, st')
  end.

Section Random.
Context {g : Type} `{PyRandom g}.

(** [random.choice(seq)]: [IndexError] on an empty sequence, otherwise
    [seq[self._randbelow(len(seq))]]. *)
Definition choice {A} (seq : list A) : G g A := fun st =>
  match seq with
  | [] => (Raise (PyExc "IndexError" true
                   "Cannot choose from an empty sequence"), st)
  | _ =>
      let (k, st') := _randbelow st (N.of_nat (length seq)) in
      match nth_error seq (N.to_nat k) with
      | Some x => (Ok x, st')
      | None => (Raise (PyExc "IndexError" true "list index out of range"),
                 st')
      end
  end.

(** [random.randint(a, b)] = [randrange(a, b + 1)] = [a + _randbelow(b + 1 - a)]. *)
Definition randint (a b : N) : G g N := fun st =>
  let (k, st') := _randbelow st (b + 1 - a)%N in (Ok (a + k)%N, st').

Definition random_float : G g float := fun st =>
  let (x, st') := random st in (Ok x, st').

(** The contract of [_randbelow]: for [n > 0] its value is below [n]. *)
Definition randbelow_in_range : Prop :=
  forall st n, (0 < n)%N -> (fst (_randbelow st n) < n)%N.

End Random.

(** [x < y] on non-negative doubles: their IEEE 754 bit patterns are
    ordered as the values are. *)
Definition float_lt (x y : float) : bool := Z.ltb (float_bits x) (float_bits y).

Definition float_0_2 : float := Float 4596373779694328218.
Definition float_0_03 : float := Float 4584304132692975288.

(** A [datetime] as seconds since an epoch; [timedelta(hours=h)] adds
    [3600 * h] seconds. *)
Definition datetime := Z.
Definition hours (h : N) : Z := 3600 * Z.of_N h.

(** The dictionaries the generator builds, one record type per kind; the
    [to_record] functions give the stored JSON document. *)
Record truck := Truck {
  t_truck_id : string;             (* also the "id" *)
  t_make : string;
  t_model : string;
  t_year : N;
  t_odometer_miles : N;
  t_home_terminal : string
}.

Record driver := Driver {
  dr_driver_id : string;           (* also the "id" *)
  dr_hazmat_cert : bool;
  dr_safety_score : N;
  dr_home_base : string
}.

Record load := Load {
  l_load_id : string;              (* also the "id" *)
  l_customer_id : string;
  l_origin : string;
  l_destination : string;
  l_pickup_time : string;
  l_delivery_deadline : string;
  l_priority : string;
  l_weight_lbs : N;
  l_rate_usd : N
}.

Record dispatch := Dispatch {
  dp_id : string;
  dp_load_id : string;
  dp_truck_id : string;
  dp_driver_id : string;
  dp_dispatch_time : string
}.

Record exception := Exception {
  ex_id : string;
  ex_load_id : string;
  ex_exception_type : string;
  ex_delay_minutes : option N;
  ex_detected_at : string
}.

Definition EXCEPTION_TYPES : list string :=
  ["Late Delivery"; "Breakdown"; "Weather Delay"; "HOS Violation"].

Section Generate.
Context {g : Type} `{PyRandom g}.

Fixpoint gen_list {A} (f : nat -> G g A) (i n : nat) : G g (list A) :=
  match n with
  | 0 => mret []
  | S n' => x ← f i; xs ← gen_list f (S i) n'; mret (x :: xs)
  end.

Definition gen_truck (i : nat) : G g truck :=
  make ← choice ["Peterbilt"; "Kenworth"; "Freightliner"];
  model ← choice ["579"; "T680"; "Cascadia"];
  year ← randint 2019 2024;
  odo ← randint 150000 650000;
  home ← choice ["DAL"; "PHX"; "DEN"; "ATL"];
  mret (Truck ("T-" ++ pretty (1000 + N.of_nat i)%N) make model year odo
             home).

(** [generate_trucks(n)] *)
Definition generate_trucks (n : nat) : G g (list truck) :=
  gen_list gen_truck 0 n.

Definition gen_driver (i : nat) : G g driver :=
  x ← random_float;
  score ← randint 70 99;
  base ← choice ["Dallas, TX"; "Phoenix, AZ"; "Denver, CO"; "Atlanta, GA"];
  mret (Driver ("D-" ++ pretty (2000 + N.of_nat i)%N) (float_lt x float_0_2)
              score base).

(** [generate_drivers(n)] *)
Definition generate_drivers (n : nat) : G g (list driver) :=
  gen_list gen_driver 0 n.

Definition gen_load (isoformat : datetime -> string) (start_date : datetime)
    (i : nat) : G g load :=
  dp ← randint 0 (24 * 365)%N;
  let pickup := (start_date + hours dp)%Z in
  dd ← randint 24 96;
  let deadline := (pickup + hours dd)%Z in
  cust ← randint 100 199;
  origin ← choice ["Dallas, TX"; "Phoenix, AZ"; "Denver, CO"; "Atlanta, GA"];
  dest ← choice ["Chicago, IL"; "Los Angeles, CA"; "Houston, TX"];
  prio ← choice ["Low"; "Normal"; "High"];
  weight ← randint 5000 45000;
  rate ← randint 1500 6000;
  mret (Load ("L-" ++ pretty (7000 + N.of_nat i)%N) ("C-" ++ pretty cust)
             origin dest
             (isoformat pickup) (isoformat deadline) prio weight rate).

(** [generate_loads(n, start_date)]; [isoformat] renders a [datetime]. *)
Definition generate_loads (isoformat : datetime -> string)
    (n : nat) (start_date : datetime) : G g (list load) :=
  gen_list (gen_load isoformat start_date) 0 n.

Fixpoint generate_dispatch (loads : list load) (trucks : list truck)
    (drivers : list driver) : G g (list dispatch) :=
  match loads with
  | [] => mret []
  | l :: ls =>
      t ← choice trucks;
      d ← choice drivers;
      rest ← generate_dispatch ls trucks drivers;
      mret (Dispatch ("DP-" ++ l_load_id l) (l_load_id l) (t_truck_id t)
                     (dr_driver_id d) (l_pickup_time l) :: rest)
  end.

(** [generate_exceptions(loads, exception_rate)]: the [if] of the
    comprehension draws [random()] before the element is built. *)
Fixpoint generate_exceptions (loads : list load) (exception_rate : float)
  : G g (list exception) :=
  match loads with
  | [] => mret []
  | l :: ls =>
      x ← random_float;
      if float_lt x exception_rate then
        et ← choice EXCEPTION_TYPES;
        rest ← generate_exceptions ls exception_rate;
        mret (Exception ("EX-" ++ l_load_id l) (l_load_id l) et None
                        (l_delivery_deadline l) :: rest)
      else generate_exceptions ls exception_rate
  end.

End Generate.

Definition anchor_load : load :=
  Load "L-7712" "C-104" "Dallas, TX" "Phoenix, AZ" "2025-02-14T06:00:00Z"
       "2025-02-15T20:00:00Z" "High" 38500%N 4200%N.

Definition anchor_exception : exception :=
  Exception "EX-7712" "L-7712" "Late Delivery" (Some 258%N)
            "2025-02-15T21:10:00Z".

(** [inject_anchor_exception(loads, exceptions)] mutates both lists:
    [loads.insert(0, ...)] and [exceptions.append(...)]; the model
    returns the two lists as they are afterwards. *)
Definition inject_anchor_exception (loads : list load)
    (exceptions : list exception) : list load * list exception :=
  (anchor_load :: loads, (exceptions ++ [anchor_exception])%list).

(** The stored documents. *)
Definition truck_to_record (t : truck) : record :=
  <["id" := JStr (t_truck_id t)]> (<["truck_id" := JStr (t_truck_id t)]>
  (<["type" := JStr "truck"]> (<["make" := JStr (t_make t)]>
  (<["model" := JStr (t_model t)]> (<["year" := JNum (Z.of_N (t_year t))]>
  (<["odometer_miles" := JNum (Z.of_N (t_odometer_miles t))]>
  (<["home_terminal" := JStr (t_home_terminal t)]>
  (<["status" := JStr "Available"]> ∅)))))))).

Definition driver_to_record (d : driver) : record :=
  <["id" := JStr (dr_driver_id d)]> (<["driver_id" := JStr (dr_driver_id d)]>
  (<["type" := JStr "driver"]> (<["cdl_class" := JStr "A"]>
  (<["hazmat_cert" := JBool (dr_hazmat_cert d)]>
  (<["safety_score" := JNum (Z.of_N (dr_safety_score d))]>
  (<["home_base" := JStr (dr_home_base d)]> ∅)))))).

Definition load_to_record (l : load) : record :=
  <["id" := JStr (l_load_id l)]> (<["load_id" := JStr (l_load_id l)]>
  (<["type" := JStr "load"]> (<["customer_id" := JStr (l_customer_id l)]>
  (<["origin" := JStr (l_origin l)]>
  (<["destination" := JStr (l_destination l)]>
  (<["pickup_time" := JStr (l_pickup_time l)]>
  (<["delivery_deadline" := JStr (l_delivery_deadline l)]>
  (<["priority" := JStr (l_priority l)]>
  (<["weight_lbs" := JNum (Z.of_N (l_weight_lbs l))]>
  (<["rate_usd" := JNum (Z.of_N (l_rate_usd l))]> ∅)))))))))).

Definition dispatch_to_record (d : dispatch) : record :=
  <["id" := JStr (dp_id d)]> (<["load_id" := JStr (dp_load_id d)]>
  (<["type" := JStr "dispatch"]> (<["truck_id" := JStr (dp_truck_id d)]>
  (<["driver_id" := JStr (dp_driver_id d)]>
  (<["dispatch_time" := JStr (dp_dispatch_time d)]> ∅))))).

Definition exception_to_record (x : exception) : record :=
  let base :=
    <["id" := JStr (ex_id x)]> (<["load_id" := JStr (ex_load_id x)]>
    (<["type" := JStr "exception"]>
    (<["exception_type" := JStr (ex_exception_type x)]>
    (<["detected_at" := JStr (ex_detected_at x)]> ∅)))) in
  match ex_delay_minutes x with
  | Some m => <["delay_minutes" := JNum (Z.of_N m)]> base
  | None => base
  end.




(** [generate_anchor_documents()] *)
Definition generate_anchor_documents : list doc :=
  [Doc "doc-sla-C-104" "sla" "L-7712"
     ("Section 4.2 – Force Majeure. Carrier shall not be liable for " ++
      "delays caused by equipment failure, severe weather, or road " ++
      "closures beyond reasonable control.");
   Doc "doc-driver-D-332" "driver_note" "L-7712"
     ("01:17 CST – Sudden vibration in steering wheel. " ++
      "Pulled over immediately for safety. Roadside assistance contacted.");
   Doc "doc-customer-L-7712" "customer_email" "L-7712"
     ("We are extremely concerned about the late arrival of Load L-7712. " ++
      "This delay impacted our distribution center labor scheduling.")].

(** The lists [main()] holds after [inject_anchor_exception]. *)
Record main_data := MainData {
  m_trucks : list truck;
  m_drivers : list driver;
  m_loads : list load;
  m_dispatch : list dispatch;
  m_exceptions : list exception
}.

Section Main.
Context {g : Type} `{PyRandom g}.

(** The generation part of [main()], lines [start_date = ...] to
    [inject_anchor_exception(loads, exceptions)]. *)
Definition main_generate (isoformat : datetime -> string)
    (start_date : datetime) : G g main_data :=
  trucks ← generate_trucks 25;
  drivers ← generate_drivers 50;
  loads ← generate_loads isoformat 500 start_date;
  dispatch ← generate_dispatch loads trucks drivers;
  exceptions ← generate_exceptions loads float_0_03;
  let '(loads', exceptions') := inject_anchor_exception loads exceptions in
  mret (MainData trucks drivers loads' dispatch exceptions').

End Main.

(** The documents of the five [cosmos.upsert_items(...)] calls, in order. *)
Definition main_records (d : main_data) : list record :=
  (map truck_to_record (m_trucks d) ++ map driver_to_record (m_drivers d) ++
   map load_to_record (m_loads d) ++ map dispatch_to_record (m_dispatch d) ++
   map exception_to_record (m_exceptions d))%list.

(** The container after the five [cosmos.upsert_items(...)] calls. *)
Definition main_upserts (d : main_data) (container : list record)
  : list record :=
  let c := DataCosmos.upsert_items container
             (map truck_to_record (m_trucks d)) in
  let c := DataCosmos.upsert_items c (map driver_to_record (m_drivers d)) in
  let c := DataCosmos.upsert_items c (map load_to_record (m_loads d)) in
  let c := DataCosmos.upsert_items c
             (map dispatch_to_record (m_dispatch d)) in
  DataCosmos.upsert_items c (map exception_to_record (m_exceptions d)).


End Generator.

(* ================================================================= *)
(** ** Concrete inputs used by the examples below *)

Module Fixtures.
Import CosmosStore.

(** The setting of a cancelled tool invocation: the [await] on the store
    query raises [asyncio.CancelledError], whose class derives from
    [BaseException] only. *)
Definition cancelled : py_exc := PyExc "CancelledError" false "".

Definition w_cancelled : world := World [] None (Some cancelled).

Definition s_fresh : store :=
  Store "https://trucking.documents.azure.com:443/" "trucking" "operations"
        None None None 0 [].

(** The seed records of the spec's scenario. *)
Definition load_7712 : record :=
  <["id" := JStr "L-7712"]> (<["type" := JStr "load"]>
  (<["load_id" := JStr "L-7712"]> (<["priority" := JStr "High"]>
  (<["origin" := JStr "Dallas, TX"]> ∅)))).

Definition dispatch_7712 : record :=
  <["id" := JStr "DP-7712"]> (<["type" := JStr "dispatch"]>
  (<["load_id" := JStr "L-7712"]> (<["truck_id" := JStr "T-101"]> ∅))).

Definition exception_7712 : record :=
  <["id" := JStr "EX-7712"]> (<["type" := JStr "exception"]>
  (<["load_id" := JStr "L-7712"]>
  (<["exception_type" := JStr "Late Delivery"]>
  (<["delay_minutes" := JNum 95]> ∅)))).

Definition exception_7003 : record :=
  <["id" := JStr "EX-L-7003"]> (<["type" := JStr "exception"]>
  (<["load_id" := JStr "L-7003"]>
  (<["exception_type" := JStr "Breakdown"]> ∅))).

Definition w_seeded : world :=
  World [load_7712; dispatch_7712; exception_7712; exception_7003] None None.

Definition env_configured (k : string) : option string :=
  if String.eqb k "COSMOS_ENDPOINT"
  then Some "https://trucking.documents.azure.com:443/"
  else if String.eqb k "COSMOS_DATABASE" then Some "trucking"
  else if String.eqb k "COSMOS_CONTAINER" then Some "operations"
  else None.

Definition calls_demo : list (store_call * world) :=
  [(CLoadContext "L-7712", w_seeded);
   (CExceptions "L-7712", World [] None (Some (PyExc "ServiceRequestError"
                                               true "unreachable")));
   (CExceptionsByType "Breakdown", w_seeded);
   (CLoadContext "L-7003", w_seeded)].

(** A stand-in for Python's Mersenne Twister: a 64-bit linear congruential
    generator; [_randbelow] takes the high bits modulo [n] and [random]
    the top 53 bits as a double in [[0, 1)]. *)
Definition lcg_next (st : N) : N :=
  ((st * 6364136223846793005 + 1442695040888963407) mod 2 ^ 64)%N.

(** The IEEE 754 bit pattern of [k / 2^53] for [0 <= k < 2^53]. *)
Definition double_of_53 (k : Z) : SearchIndex.float :=
  if Z.eqb k 0 then SearchIndex.Float 0
  else let e := Z.log2 k in
       SearchIndex.Float (Z.lor (Z.shiftl (e + 970) 52)
                                (Z.land (Z.shiftl k (52 - e)) (2 ^ 52 - 1))).

#[export] Instance lcg_random : Generator.PyRandom N := {
  _randbelow st n := ((N.shiftr st 33) mod n, lcg_next st)%N;
  random st := (double_of_53 (Z.of_N (N.shiftr st 11)), lcg_next st)
}.

(** [datetime.isoformat()] stand-in: the seconds as a decimal string. *)
Definition iso_fx (t : Generator.datetime) : string := pretty t.

(** A service whose client constructor raises (no usable credential). *)
Definition w_ctor_down : CosmosStore.world :=
  CosmosStore.World [] (Some (PyExc "ClientAuthenticationError" true
                                "no credential")) None.

End Fixtures.

(* ================================================================= *)
(** * General lemmas *)

Lemma field_eq_str_spec (c : record) (f v : string) :
  field_eq_str c f v = true <-> c !! f = Some (JStr v).
Proof.
  unfold field_eq_str. destruct (c !! f) as [[s| | | |]|]; split; intro H;
    try discriminate.
  - apply String.eqb_eq in H. by subst.
  - inversion H; subst. apply String.eqb_refl.
Qed.

Lemma filter_none {A} (f : A -> bool) (l : list A) :
  (forall x, In x l -> f x = false) -> List.filter f l = [].
Proof.
  induction l as [|a l IH]; intro H; cbn; [done|].
  rewrite (H a (or_introl eq_refl)). apply IH. intros x Hx. apply H. by right.
Qed.

(* ================================================================= *)
(** * Properties of the record store client *)

Module StoreProps.
Import CosmosStore.

Ltac unfold_M := cbv [mbind M_bind _ensure_container run_query query_items get
    mret M_ret emit fresh set_credential set_client_container raise] in *.

(** A successful store method returns the documents matched by its
    query, in storage order. *)
Lemma store_op_ok (w : world) (q : sql_query) (s s' : store)
    (r : list record) :
  (_ensure_container w ;; run_query w q) s = (Ok r, s') ->
  r = List.filter (matches q) (w_items w).
Proof.
  intro H; unfold_M.
  destruct s as [ep db co cl ct cr n tr]; cbn in H.
  destruct cl; cbn in H.
  - destruct ct; cbn in H; [|congruence].
    destruct (w_query_fault w); cbn in H; congruence.
  - destruct (w_ctor_fault w); cbn in H; [congruence|].
    destruct (w_query_fault w); cbn in H; congruence.
Qed.

(** Without faults of the service, a store method on a well-formed object
    returns (and does not raise). *)
Lemma store_op_total (w : world) (q : sql_query) (s : store) :
  store_wf s -> w_ctor_fault w = None -> w_query_fault w = None ->
  exists s', (_ensure_container w ;; run_query w q) s
             = (Ok (List.filter (matches q) (w_items w)), s').
Proof.
  unfold store_wf; intros Hwf Hc Hq; unfold_M.
  destruct s as [ep db co cl ct cr n tr]; cbn in *.
  destruct cl; cbn.
  - destruct ct; cbn; [|exfalso; by apply Hwf].
    rewrite Hq; eauto.
  - rewrite Hc; cbn. rewrite Hq; eauto.
Qed.

Lemma matches_load_context (x : string) (c : record) :
  matches (load_context_query x) c = true <-> c !! "load_id" = Some (JStr x).
Proof.
  unfold matches; cbn. rewrite andb_true_r. apply field_eq_str_spec.
Qed.

Lemma matches_exceptions (x : string) (c : record) :
  matches (exceptions_query x) c = true <->
  c !! "type" = Some (JStr "exception") /\ c !! "load_id" = Some (JStr x).
Proof.
  unfold matches; cbn. rewrite andb_true_r, andb_true_iff.
  by rewrite !field_eq_str_spec.
Qed.

Lemma matches_exceptions_by_type (t : string) (c : record) :
  matches (exceptions_by_type_query t) c = true <->
  c !! "type" = Some (JStr "exception") /\
  c !! "exception_type" = Some (JStr t).
Proof.
  unfold matches; cbn. rewrite andb_true_r, andb_true_iff.
  by rewrite !field_eq_str_spec.
Qed.

Lemma in_filter_matches (q : sql_query) (items : list record) (c : record) :
  In c (List.filter (matches q) items) <-> In c items /\ matches q c = true.
Proof. apply filter_In. Qed.



(** Claim C2: every record returned by [get_load_context load_id] has
    [load_id] equal to the argument; every stored record with that
    [load_id] is returned whatever its [type]; and when no stored record
    matches (and the service does not fail), the result is the empty
    list, not an error. *)
Theorem get_load_context_spec (w : world) (load_id : string) (s : store) :
  (forall r s', get_load_context w load_id s = (Ok r, s') ->
     forall c, In c r <->
       In c (w_items w) /\ c !! "load_id" = Some (JStr load_id)) /\
  (store_wf s -> w_ctor_fault w = None -> w_query_fault w = None ->
   (forall c, In c (w_items w) -> c !! "load_id" <> Some (JStr load_id)) ->
   exists s', get_load_context w load_id s = (Ok [], s')).
Proof.
  split.
  - intros r s' H c. apply store_op_ok in H; subst r.
    by rewrite in_filter_matches, matches_load_context.
  - intros Hwf Hc Hq Hnone.
    destruct (store_op_total w (load_context_query load_id) s Hwf Hc Hq)
      as [s' Hs'].
    exists s'. unfold get_load_context. rewrite Hs'. f_equal. f_equal.
    apply filter_none. intros c Hin. destruct (matches _ c) eqn:E; [|done].
    apply matches_load_context in E. by destruct (Hnone c Hin).
Qed.

(** Claim C3: a record is in the result of [get_exceptions load_id]
    exactly when it is stored, its [type] is ["exception"] and its
    [load_id] is the argument. *)
Theorem get_exceptions_spec (w : world) (load_id : string) (s s' : store)
    (r : list record) :
  get_exceptions w load_id s = (Ok r, s') ->
  forall c, In c r <->
    In c (w_items w) /\ c !! "type" = Some (JStr "exception") /\
    c !! "load_id" = Some (JStr load_id).
Proof.
  intros H c. apply store_op_ok in H; subst r.
  by rewrite in_filter_matches, matches_exceptions.
Qed.

(** Claim C4: a record is in the result of
    [get_exceptions_by_type exception_type] exactly when it is stored,
    its [type] is ["exception"] and its [exception_type] is the very
    string given (string equality, so case-sensitive), whatever its
    [load_id]; hence all returned records carry one and the same
    [exception_type]. *)
Theorem get_exceptions_by_type_spec (w : world) (exception_type : string)
    (s s' : store) (r : list record) :
  get_exceptions_by_type w exception_type s = (Ok r, s') ->
  (forall c, In c r <->
     In c (w_items w) /\ c !! "type" = Some (JStr "exception") /\
     c !! "exception_type" = Some (JStr exception_type)) /\
  (forall c1 c2, In c1 r -> In c2 r ->
     c1 !! "exception_type" = c2 !! "exception_type").
Proof.
  intros H. apply store_op_ok in H; subst r.
  assert (Hr : forall c,
    In c (List.filter (matches (exceptions_by_type_query exception_type))
            (w_items w)) <->
    In c (w_items w) /\ c !! "type" = Some (JStr "exception") /\
    c !! "exception_type" = Some (JStr exception_type)).
  { intro c. by rewrite in_filter_matches, matches_exceptions_by_type. }
  split; [exact Hr|].
  intros c1 c2 H1 H2. apply Hr in H1, H2. by rewrite (proj2 (proj2 H1)),
    (proj2 (proj2 H2)).
Qed.

Lemma falsy_false (v : option string) :
  falsy v = false -> exists x, v = Some x /\ x <> "".
Proof.
  destruct v as [x|]; cbn; [|discriminate].
  intro H. exists x. split; [done|]. by apply String.eqb_neq.
Qed.

(** Claim C7: [__init__] raises a [ValueError] whose message lists
    exactly the settings that are unset or empty, as soon as one of them
    is; when all three are non-empty it returns an object with no client,
    no container and no request issued to the store. *)
Theorem init_spec (env : string -> option string) :
  (forall n, In n (missing_names env) <->
     (n = "COSMOS_ENDPOINT" \/ n = "COSMOS_DATABASE" \/
      n = "COSMOS_CONTAINER") /\ falsy (env n) = true) /\
  (missing_names env <> [] ->
     __init__ env = Raise (PyExc "ValueError" true
       ("Missing environment variables: " ++
        String.concat ", " (missing_names env)))) /\
  (missing_names env = [] ->
     exists ep db co,
       env "COSMOS_ENDPOINT" = Some ep /\ ep <> "" /\
       env "COSMOS_DATABASE" = Some db /\ db <> "" /\
       env "COSMOS_CONTAINER" = Some co /\ co <> "" /\
       __init__ env = Ok (Store ep db co None None None 0 [])).
Proof.
  unfold missing_names, __init__; cbn.
  destruct (falsy (env "COSMOS_ENDPOINT")) eqn:F1,
           (falsy (env "COSMOS_DATABASE")) eqn:F2,
           (falsy (env "COSMOS_CONTAINER")) eqn:F3; cbn;
    (split; [intro n; split;
             [intros H; repeat destruct H as [H|H]; subst; naive_solver
             |intros [[->|[->| ->]] Hf]; first [congruence | intuition]]|]);
    (split; [intro Hne; done|intro Hnil; try done]).
  destruct (falsy_false _ F1) as [ep [E1 N1]],
           (falsy_false _ F2) as [db [E2 N2]],
           (falsy_false _ F3) as [co [E3 N3]].
  exists ep, db, co. rewrite E1, E2, E3. by repeat split.
Qed.

(** The connection invariant: either nothing has been built and nothing
    queried, or exactly one client and one container were built, the
    object holds them, and every query went to that container. *)
Definition conn_inv (s : store) : Prop :=
  (s_client s = None /\ s_container s = None /\
   clients_built (s_trace s) = 0 /\ containers_built (s_trace s) = 0 /\
   forall co q, ~ In (EQuery co q) (s_trace s)) \/
  (exists cl co, s_client s = Some cl /\ s_container s = Some co /\
   clients_built (s_trace s) = 1 /\ containers_built (s_trace s) = 1 /\
   forall co' q, In (EQuery co' q) (s_trace s) -> co' = co).

Lemma conn_inv_step (w : world) (q : sql_query) (s : store) :
  conn_inv s -> conn_inv (snd ((_ensure_container w ;; run_query w q) s)).
Proof.
  unfold conn_inv, clients_built, containers_built; unfold_M.
  destruct s as [ep db co cl ct cr n tr]; cbn.
  intros [(-> & -> & H1 & H2 & H3) | (cl' & co' & -> & -> & H1 & H2 & H3)];
    cbn.
  - destruct (w_ctor_fault w); cbn.
    + left. do 4 (split; [done|]). intros co0 q0 [Hc|Hc]; [done|].
      by apply (H3 co0 q0).
    + right. exists (S n), (S (S n)).
      destruct (w_query_fault w); cbn; rewrite ?H1, ?H2;
        (do 4 (split; [done|])); intros co0 q0 Hin;
        repeat destruct Hin as [Hin|Hin]; try congruence;
        by destruct (H3 co0 q0).
  - right. exists cl', co'.
    destruct (w_query_fault w); cbn; rewrite ?H1, ?H2;
      (do 4 (split; [done|])); intros co0 q0 [Hin|Hin];
      first [congruence | by apply (H3 co0 q0)].
Qed.

Lemma conn_inv_run_call (c : store_call) (w : world) (s : store) :
  conn_inv s -> conn_inv (snd (run_call c w s)).
Proof. destruct c; apply conn_inv_step. Qed.

Lemma conn_inv_run_calls (cs : list (store_call * world)) (s : store) :
  conn_inv s -> conn_inv (run_calls cs s).
Proof.
  revert s; induction cs as [|[c w] cs IH]; intros s H; cbn; [done|].
  apply IH, conn_inv_run_call, H.
Qed.

Lemma init_conn_inv (env : string -> option string) (s0 : store) :
  __init__ env = Ok s0 -> conn_inv s0.
Proof.
  unfold __init__.
  destruct (falsy _ || falsy _ || falsy _); intro H; [discriminate|].
  injection H as <-. left. cbn. do 4 (split; [done|]). intros co q Hf; exact Hf.
Qed.

(** Claim C8: starting from an object built by [__init__], after any
    sequence of [get_load_context], [get_exceptions] and
    [get_exceptions_by_type] calls (each of which may raise), at most one
    client and at most one container handle have been built, and every
    query issued went to the container handle the object holds. *)
Theorem ensure_container_memoized (env : string -> option string)
    (s0 : store) (cs : list (store_call * world)) :
  __init__ env = Ok s0 ->
  let s := run_calls cs s0 in
  clients_built (s_trace s) <= 1 /\ containers_built (s_trace s) <= 1 /\
  forall co q, In (EQuery co q) (s_trace s) -> s_container s = Some co.
Proof.
  intros Hinit s.
  destruct (conn_inv_run_calls cs s0 (init_conn_inv env s0 Hinit))
    as [(_ & _ & H1 & H2 & H3) | (cl & co & _ & Hco & H1 & H2 & H3)];
    fold s in H1, H2, H3 |- *.
  - split; [lia|split; [lia|]]. intros co q Hin. by destruct (H3 co q).
  - split; [lia|split; [lia|]]. intros co' q Hin.
    rewrite (H3 co' q Hin). exact Hco.
Qed.

End StoreProps.

(* ================================================================= *)
(** * Properties of the MCP tools *)

Module FacadeProps.
Import CosmosStore Facade Fixtures.

(** Claim C1, as stated: for every tool, input and store object, a
    raising store call makes the tool return [[]], and a returning one
    makes it return the same list. This fails when the store call raises
    [CancelledError]: the tool re-raises it. *)
Lemma facade_swallows_all_counterexample :
  ~ (forall (t : tool) (w : world) (x : string) (s : store),
       match store_call t w x s with
       | (Ok r, _) => fst (tool_call t w x s) = Ok r
       | (Raise _, _) => fst (tool_call t w x s) = Ok []
       end).
Proof.
  intro H. specialize (H TLoadContext w_cancelled "L-7712" s_fresh).
  vm_compute in H. discriminate H.
Qed.

(** Claim C1 (amended): for every tool, input and store object, when the
    store call returns a list the tool returns that list with the same
    object state; when it raises an exception whose class derives from
    [Exception] the tool returns [[]]; an exception of a
    [BaseException]-only class (task cancellation, interrupt) is
    re-raised unchanged. *)
Theorem facade_error_policy (t : tool) (w : world) (x : string) (s : store) :
  (forall r s', store_call t w x s = (Ok r, s') ->
     tool_call t w x s = (Ok r, s')) /\
  (forall e s', store_call t w x s = (Raise e, s') ->
     exc_is_Exception e = true -> tool_call t w x s = (Ok [], s')) /\
  (forall e s', store_call t w x s = (Raise e, s') ->
     exc_is_Exception e = false -> tool_call t w x s = (Raise e, s')).
Proof.
  assert (Hd : tool_call t w x s = try_except_empty (store_call t w x) s)
    by (destruct t; reflexivity).
  rewrite Hd; unfold try_except_empty.
  split; [|split]; intros ? s' Hs; rewrite Hs; [done| |];
    intros He; by rewrite He.
Qed.

End FacadeProps.

(* ================================================================= *)
(** * Properties of the search index wrapper *)

Module SearchProps.
Import SearchIndex.

Lemma create_noop (env : string -> option string) (name : string)
    (f : option py_exc) (sv : service) :
  In name (sv_indexes sv) ->
  create_index_if_not_exists env name f sv = (Ok tt, log EListIndexes sv).
Proof.
  intro Hin. unfold create_index_if_not_exists.
  replace (existsb (String.eqb name) (sv_indexes sv)) with true; [done|].
  symmetry. apply existsb_exists. exists name. by rewrite String.eqb_refl.
Qed.

(** One call creates the index at most once, and when it does, the index
    is listed afterwards. *)
Lemma create_at_most_once (env : string -> option string) (name : string)
    (f : option py_exc) (sv : service) :
  let sv' := snd (create_index_if_not_exists env name f sv) in
  created (sv_trace sv') = created (sv_trace sv) \/
  (created (sv_trace sv') = S (created (sv_trace sv)) /\
   In name (sv_indexes sv')).
Proof.
  unfold create_index_if_not_exists, created, log, environ; cbn.
  destruct (existsb _ _); cbn; [by left|].
  destruct (env "AZURE_OPENAI_ENDPOINT"),
           (env "AZURE_OPENAI_EMBEDDING_DEPLOYMENT"),
           (env "AZURE_CLIENT_RESOURCE_ID"), f; cbn;
    first [by left | right; split; [done | by left]].
Qed.

(** Claim C5: when the index name is already listed, the call issues
    only the listing request and creates nothing; two successive calls
    (whatever the service answers to each creation request) create the
    index at most once. *)
Theorem create_index_if_not_exists_idempotent
    (env : string -> option string) (name : string)
    (f1 f2 : option py_exc) (sv : service) :
  (In name (sv_indexes sv) ->
   create_index_if_not_exists env name f1 sv = (Ok tt, log EListIndexes sv)
   /\ created (sv_trace (log EListIndexes sv)) = created (sv_trace sv)) /\
  created (sv_trace (snd (create_index_if_not_exists env name f2
             (snd (create_index_if_not_exists env name f1 sv)))))
    <= created (sv_trace sv) + 1.
Proof.
  split.
  - intro Hin. split; [by apply create_noop|done].
  - destruct (create_at_most_once env name f1 sv) as [H1|[H1 Hin]].
    + destruct (create_at_most_once env name f2
        (snd (create_index_if_not_exists env name f1 sv))) as [H2|[H2 _]];
        lia.
    + rewrite (create_noop env name f2 _ Hin). cbn.
      unfold created in *. cbn. lia.
Qed.

(** Claim C6: an empty list issues no request at all; otherwise, once
    the embeddings are computed and the batch upload answers with one
    [succeeded] flag per document, the call raises a [RuntimeError]
    whose message carries the number of failed documents when at least
    one flag is false, and returns normally when all are true. *)
Theorem upload_documents_spec (documents : list doc)
    (embed_out : result (list (list float)))
    (upload_out : result (list bool)) (sv : service) :
  (documents = [] ->
   upload_documents documents embed_out upload_out sv = (Ok tt, sv)) /\
  (documents <> [] ->
   forall embeddings results,
   embed_out = Ok embeddings -> upload_out = Ok results ->
   (List.filter negb results <> [] ->
    fst (upload_documents documents embed_out upload_out sv) =
      Raise (upload_error (length (List.filter negb results)))) /\
   ((forall b, In b results -> b = true) ->
    fst (upload_documents documents embed_out upload_out sv) = Ok tt)).
Proof.
  split; [by intros ->|].
  intros Hne embeddings results -> ->.
  destruct documents as [|d ds]; [done|]. cbn.
  split.
  - destruct (List.filter negb results) eqn:E; done.
  - intros Hall. rewrite filter_none; [done|].
    intros b Hb. by rewrite (Hall b Hb).
Qed.

(** Claim C9, as stated: a provided [load_id] always yields the
    [load_id] equality filter. For [Some ""] no filter is sent: the
    request below carries [sr_filter = None]. *)
Lemma search_filter_when_provided_counterexample :
  search "reefer temperature alarm" (Some "") 5 (Ok [[Float 0]]) (Ok [])
         (Service [] [])
  = (Ok [],
     Service [] [ESearch (SearchRequest "reefer temperature alarm" None
                   [VectorQuery [Float 0] 5 "content_vector"] 5);
                 EEmbed ["reefer temperature alarm"]]) /\
  ~ (forall x, filter_expr (Some x) = Some ("load_id eq '" ++ x ++ "'")).
Proof.
  split; [reflexivity|].
  intro H. specialize (H ""). discriminate H.
Qed.

(** Claim C9 (amended): [search] issues one embedding request for
    [[query]] and one search request with [search_text = query], one
    vector query of [k = top] on ["content_vector"], [top = top], and the
    filter ["load_id eq '<load_id>'"] when [load_id] is given and
    non-empty, none when it is [None] or [""]; the rows the service
    returns come back in its order, each projected to [id], [doc_type],
    [load_id], [content] and its [@search.score], so there are at most
    [top] of them when the service honours [top]. *)
Theorem search_spec (query : string) (load_id : option string) (top : Z)
    (v : list float) (vs : list (list float)) (hits : list hit)
    (sv : service) :
  search query load_id top (Ok (v :: vs)) (Ok hits) sv =
    (Ok (map project hits),
     Service (sv_indexes sv)
       (ESearch (SearchRequest query (filter_expr load_id)
                   [VectorQuery v top "content_vector"] top)
        :: EEmbed [query] :: sv_trace sv)) /\
  (forall x, x <> "" ->
     filter_expr (Some x) = Some ("load_id eq '" ++ x ++ "'")) /\
  filter_expr (Some "") = None /\ filter_expr None = None /\
  (forall r, In r (map project hits) ->
     exists h, In h hits /\ r_id r = h_id h /\ r_doc_type r = h_doc_type h /\
       r_load_id r = h_load_id h /\ r_content r = h_content h /\
       r_score r = h_score h) /\
  (Z.of_nat (length hits) <= top ->
     Z.of_nat (length (map project hits)) <= top)%Z.
Proof.
  split; [reflexivity|].
  split; [intros x Hx; cbn; by rewrite (proj2 (String.eqb_neq x "") Hx)|].
  split; [reflexivity|]. split; [reflexivity|].
  split.
  - intros r Hr. apply in_map_iff in Hr as [h [<- Hh]].
    exists h. by repeat split.
  - by rewrite length_map.
Qed.

(** Claim C10: [search] with [load_id = ""] behaves exactly as with no
    [load_id]: same requests, same result. *)
Theorem search_empty_load_id_unfiltered (query : string) (top : Z)
    (embed_out : result (list (list float)))
    (search_out : result (list hit)) (sv : service) :
  search query (Some "") top embed_out search_out sv =
  search query None top embed_out search_out sv.
Proof. reflexivity. Qed.

End SearchProps.

(* ================================================================= *)
(** * The spec's scenario and instances of the theorems *)

Module Scenario.
Import CosmosStore Facade Fixtures StoreProps.

Example scenario_load_context :
  fst (Facade.get_load_context w_seeded "L-7712" s_fresh)
  = Ok [load_7712; dispatch_7712; exception_7712].
Proof. reflexivity. Qed.

Example scenario_load_exceptions :
  fst (get_load_exceptions w_seeded "L-7712" s_fresh) = Ok [exception_7712].
Proof. reflexivity. Qed.

Example scenario_late_delivery :
  fst (Facade.get_exceptions_by_type w_seeded "Late Delivery" s_fresh)
  = Ok [exception_7712].
Proof. reflexivity. Qed.

Example scenario_breakdown :
  fst (Facade.get_exceptions_by_type w_seeded "Breakdown" s_fresh)
  = Ok [exception_7003].
Proof. reflexivity. Qed.

Example scenario_case_sensitive :
  fst (Facade.get_exceptions_by_type w_seeded "late delivery" s_fresh)
  = Ok [].
Proof. reflexivity. Qed.

Example scenario_unreachable :
  fst (Facade.get_load_context
         (World [load_7712] None
            (Some (PyExc "ServiceRequestError" true "unreachable")))
         "L-7712" s_fresh) = Ok [].
Proof. reflexivity. Qed.

Lemma get_exceptions_spec_witness :
  CosmosStore.get_exceptions w_seeded "L-7712" s_fresh
    = (Ok [exception_7712],
       snd (CosmosStore.get_exceptions w_seeded "L-7712" s_fresh)) /\
  (forall c, In c [exception_7712] <->
     In c (w_items w_seeded) /\ c !! "type" = Some (JStr "exception") /\
     c !! "load_id" = Some (JStr "L-7712")).
Proof.
  split; [vm_compute; reflexivity|].
  apply (get_exceptions_spec w_seeded "L-7712" s_fresh
           (snd (CosmosStore.get_exceptions w_seeded "L-7712" s_fresh))).
  vm_compute; reflexivity.
Defined.

Lemma get_exceptions_by_type_spec_witness :
  CosmosStore.get_exceptions_by_type w_seeded "Late Delivery" s_fresh
    = (Ok [exception_7712],
       snd (CosmosStore.get_exceptions_by_type w_seeded "Late Delivery"
              s_fresh)) /\
  ((forall c, In c [exception_7712] <->
     In c (w_items w_seeded) /\ c !! "type" = Some (JStr "exception") /\
     c !! "exception_type" = Some (JStr "Late Delivery")) /\
   (forall c1 c2, In c1 [exception_7712] -> In c2 [exception_7712] ->
     c1 !! "exception_type" = c2 !! "exception_type")).
Proof.
  split; [vm_compute; reflexivity|].
  apply (get_exceptions_by_type_spec w_seeded "Late Delivery" s_fresh
           (snd (CosmosStore.get_exceptions_by_type w_seeded "Late Delivery"
                   s_fresh))).
  vm_compute; reflexivity.
Defined.

Lemma ensure_container_memoized_witness :
  __init__ env_configured = Ok s_fresh /\
  (let s := run_calls calls_demo s_fresh in
   clients_built (s_trace s) <= 1 /\ containers_built (s_trace s) <= 1 /\
   forall co q, In (EQuery co q) (s_trace s) -> s_container s = Some co).
Proof.
  split; [reflexivity|].
  apply (ensure_container_memoized env_configured s_fresh calls_demo).
  reflexivity.
Defined.

End Scenario.

(* ================================================================= *)
(** * Properties of the data generator *)

Module GeneratorProps.
Import SearchIndex Generator.
Import (notations) CosmosStore.

Section Props.
Context {g : Type} `{PyRandom g}.

Lemma G_bind_step {A B} (m : G g A) (k : A -> G g B) (st st1 : g) (a : A) :
  m st = (Ok a, st1) -> @mbind (G g) G_bind A B k m st = k a st1.
Proof. intro E. cbv [mbind G_bind]. by rewrite E. Qed.

Lemma G_bind_ok {A B} (m : G g A) (k : A -> G g B) (st st' : g) (x : B) :
  @mbind (G g) G_bind A B k m st = (Ok x, st') ->
  exists a st1, m st = (Ok a, st1) /\ k a st1 = (Ok x, st').
Proof.
  cbv [mbind G_bind]. destruct (m st) as [[a|e] st1]; [eauto|discriminate].
Qed.

Lemma G_bind_raise {A B} (m : G g A) (k : A -> G g B) (st st' : g) (e : py_exc) :
  @mbind (G g) G_bind A B k m st = (Raise e, st') ->
  (exists st1, m st = (Raise e, st1)) \/
  (exists a st1, m st = (Ok a, st1) /\ k a st1 = (Raise e, st')).
Proof.
  cbv [mbind G_bind]. destruct (m st) as [[a|e'] st1]; intro E.
  - right. eauto.
  - left. injection E as -> _. eauto.
Qed.

Lemma randint_ok (a b : N) (st : g) :
  @randbelow_in_range g _ -> (a <= b)%N ->
  exists k st', randint a b st = (Ok k, st') /\ (a <= k <= b)%N.
Proof.
  intros RB Hab. unfold randint.
  specialize (RB st (b + 1 - a)%N ltac:(lia)).
  destruct (_randbelow st (b + 1 - a)%N) as [k st'] eqn:E; cbn in RB.
  exists (a + k)%N, st'. split; [done|lia].
Qed.

Lemma choice_in {A} (xs : list A) (st st' : g) (x : A) :
  choice xs st = (Ok x, st') -> In x xs.
Proof.
  unfold choice. destruct xs as [|y ys]; [discriminate|].
  destruct (_randbelow st _) as [k st1].
  destruct (nth_error (y :: ys) (N.to_nat k)) eqn:E; [|discriminate].
  intro Hx. injection Hx as -> _. by eapply nth_error_In.
Qed.

Lemma choice_ok {A} (xs : list A) (st : g) :
  @randbelow_in_range g _ -> xs <> [] ->
  exists x st', choice xs st = (Ok x, st') /\ In x xs.
Proof.
  intros RB Hne.
  assert (Hc : exists x st', choice xs st = (Ok x, st')).
  { unfold choice. destruct xs as [|y ys]; [done|].
    specialize (RB st (N.of_nat (length (y :: ys))) ltac:(cbn; lia)).
    destruct (_randbelow st _) as [k st1]; cbn in RB.
    destruct (nth_error (y :: ys) (N.to_nat k)) eqn:E.
    - eauto.
    - apply nth_error_None in E. cbn in E. lia. }
  destruct Hc as (x & st' & Hc). exists x, st'. split; [done|].
  by eapply choice_in.
Qed.

Lemma choice_raise {A} (xs : list A) (st st' : g) (e : py_exc) :
  choice xs st = (Raise e, st') -> exc_class e = "IndexError".
Proof.
  unfold choice. destruct xs as [|y ys]; [by intros [= <- _]|].
  destruct (_randbelow st _) as [k st1].
  destruct (nth_error (y :: ys) (N.to_nat k)); [discriminate|].
  by intros [= <- _].
Qed.

Lemma gen_list_total {A} (f : nat -> G g A) (P : nat -> A -> Prop) :
  (forall j st, exists x st', f j st = (Ok x, st') /\ P j x) ->
  forall n i st, exists xs st',
    gen_list f i n st = (Ok xs, st') /\ Forall2 P (seq i n) xs.
Proof.
  intros Hf n. induction n as [|n IH]; intros i st; cbn.
  - exists [], st. split; [done|constructor].
  - destruct (Hf i st) as (x & st1 & E1 & P1).
    rewrite (G_bind_step _ _ _ _ _ E1).
    destruct (IH (S i) st1) as (xs & st2 & E2 & P2).
    rewrite (G_bind_step _ _ _ _ _ E2).
    exists (x :: xs), st2. split; [done|by constructor].
Qed.

Lemma gen_list_ok {A} (f : nat -> G g A) (P : nat -> A -> Prop)
    (i n : nat) (st st' : g) (xs : list A) :
  (forall j st1 x st2, f j st1 = (Ok x, st2) -> P j x) ->
  gen_list f i n st = (Ok xs, st') -> Forall2 P (seq i n) xs.
Proof.
  intro Hf. revert i st st' xs. induction n as [|n IH]; intros i st st' xs Hg;
    cbn in Hg.
  - cbv [mret G_ret] in Hg. injection Hg as <- _. constructor.
  - apply G_bind_ok in Hg as (x & st1 & E1 & Hg).
    apply G_bind_ok in Hg as (ys & st2 & E2 & Hg).
    cbv [mret G_ret] in Hg. injection Hg as <- _. cbn.
    constructor; [by eapply Hf|]. by eapply IH.
Qed.

Lemma gen_load_total (isoformat : datetime -> string) (start : datetime)
    (j : nat) (st : g) :
  @randbelow_in_range g _ ->
  exists l st', gen_load isoformat start j st = (Ok l, st') /\
    l_load_id l = "L-" ++ pretty (7000 + N.of_nat j)%N /\
    (exists p d, l_pickup_time l = isoformat p /\
       l_delivery_deadline l = isoformat d /\
       (start <= p <= start + hours (24 * 365))%Z /\
       (p + hours 24 <= d <= p + hours 96)%Z) /\
    (exists c, l_customer_id l = "C-" ++ pretty c /\ (100 <= c <= 199)%N) /\
    In (l_origin l) ["Dallas, TX"; "Phoenix, AZ"; "Denver, CO"; "Atlanta, GA"] /\
    In (l_destination l) ["Chicago, IL"; "Los Angeles, CA"; "Houston, TX"] /\
    In (l_priority l) ["Low"; "Normal"; "High"] /\
    (5000 <= l_weight_lbs l <= 45000)%N /\ (1500 <= l_rate_usd l <= 6000)%N.
Proof.
  intro RB. unfold gen_load.
  destruct (randint_ok 0 (24 * 365) st RB ltac:(lia)) as (dp & st1 & E1 & B1).
  rewrite (G_bind_step _ _ _ _ _ E1). cbv beta zeta.
  destruct (randint_ok 24 96 st1 RB ltac:(lia)) as (dd & st2 & E2 & B2).
  rewrite (G_bind_step _ _ _ _ _ E2). cbv beta zeta.
  destruct (randint_ok 100 199 st2 RB ltac:(lia)) as (cu & st3 & E3 & B3).
  rewrite (G_bind_step _ _ _ _ _ E3). cbv beta.
  destruct (choice_ok ["Dallas, TX"; "Phoenix, AZ"; "Denver, CO"; "Atlanta, GA"]
              st3 RB ltac:(discriminate)) as (o & st4 & E4 & I4).
  rewrite (G_bind_step _ _ _ _ _ E4). cbv beta.
  destruct (choice_ok ["Chicago, IL"; "Los Angeles, CA"; "Houston, TX"]
              st4 RB ltac:(discriminate)) as (de & st5 & E5 & I5).
  rewrite (G_bind_step _ _ _ _ _ E5). cbv beta.
  destruct (choice_ok ["Low"; "Normal"; "High"]
              st5 RB ltac:(discriminate)) as (pr & st6 & E6 & I6).
  rewrite (G_bind_step _ _ _ _ _ E6). cbv beta.
  destruct (randint_ok 5000 45000 st6 RB ltac:(lia)) as (w & st7 & E7 & B7).
  rewrite (G_bind_step _ _ _ _ _ E7). cbv beta.
  destruct (randint_ok 1500 6000 st7 RB ltac:(lia)) as (r & st8 & E8 & B8).
  rewrite (G_bind_step _ _ _ _ _ E8). cbv beta.
  cbv [mret G_ret]. eexists _, _. split; [reflexivity|]. cbn [l_load_id
    l_pickup_time l_delivery_deadline l_customer_id l_origin l_destination
    l_priority l_weight_lbs l_rate_usd].
  split; [done|]. split.
  { eexists _, _. split; [reflexivity|]. split; [reflexivity|].
    unfold hours. lia. }
  split; [exists cu; split; [done|lia]|].
  repeat split; first [assumption | lia].
Qed.

Lemma gen_truck_total (i : nat) (st : g) :
  @randbelow_in_range g _ ->
  exists t st', gen_truck i st = (Ok t, st') /\
    t_truck_id t = "T-" ++ pretty (1000 + N.of_nat i)%N /\
    In (t_make t) ["Peterbilt"; "Kenworth"; "Freightliner"] /\
    In (t_model t) ["579"; "T680"; "Cascadia"] /\
    (2019 <= t_year t <= 2024)%N /\
    (150000 <= t_odometer_miles t <= 650000)%N /\
    In (t_home_terminal t) ["DAL"; "PHX"; "DEN"; "ATL"].
Proof.
  intro RB. unfold gen_truck.
  destruct (choice_ok ["Peterbilt"; "Kenworth"; "Freightliner"] st RB
              ltac:(discriminate)) as (mk & st1 & E1 & I1).
  rewrite (G_bind_step _ _ _ _ _ E1). cbv beta.
  destruct (choice_ok ["579"; "T680"; "Cascadia"] st1 RB
              ltac:(discriminate)) as (md & st2 & E2 & I2).
  rewrite (G_bind_step _ _ _ _ _ E2). cbv beta.
  destruct (randint_ok 2019 2024 st2 RB ltac:(lia)) as (y & st3 & E3 & B3).
  rewrite (G_bind_step _ _ _ _ _ E3). cbv beta.
  destruct (randint_ok 150000 650000 st3 RB ltac:(lia))
    as (od & st4 & E4 & B4).
  rewrite (G_bind_step _ _ _ _ _ E4). cbv beta.
  destruct (choice_ok ["DAL"; "PHX"; "DEN"; "ATL"] st4 RB
              ltac:(discriminate)) as (hm & st5 & E5 & I5).
  rewrite (G_bind_step _ _ _ _ _ E5). cbv beta.
  cbv [mret G_ret]. eexists _, _. split; [reflexivity|]. cbn.
  repeat split; first [reflexivity | assumption | lia].
Qed.

Lemma gen_driver_total (i : nat) (st : g) :
  @randbelow_in_range g _ ->
  exists d st', gen_driver i st = (Ok d, st') /\
    dr_driver_id d = "D-" ++ pretty (2000 + N.of_nat i)%N /\
    (70 <= dr_safety_score d <= 99)%N /\
    In (dr_home_base d) ["Dallas, TX"; "Phoenix, AZ"; "Denver, CO"; "Atlanta, GA"].
Proof.
  intro RB. unfold gen_driver.
  unfold random_float at 1.
  destruct (random st) as [x st1] eqn:E0.
  assert (E1 : random_float st = (Ok x, st1)) by (unfold random_float; by rewrite E0).
  rewrite (G_bind_step _ _ _ _ _ E1). cbv beta.
  destruct (randint_ok 70 99 st1 RB ltac:(lia)) as (sc & st2 & E2 & B2).
  rewrite (G_bind_step _ _ _ _ _ E2). cbv beta.
  destruct (choice_ok ["Dallas, TX"; "Phoenix, AZ"; "Denver, CO"; "Atlanta, GA"]
              st2 RB ltac:(discriminate)) as (hb & st3 & E3 & I3).
  rewrite (G_bind_step _ _ _ _ _ E3). cbv beta.
  cbv [mret G_ret]. eexists _, _. split; [reflexivity|]. cbn.
  repeat split; first [reflexivity | assumption | lia].
Qed.

Lemma gen_truck_id (i : nat) (st st' : g) (t : truck) :
  gen_truck i st = (Ok t, st') ->
  t_truck_id t = "T-" ++ pretty (1000 + N.of_nat i)%N.
Proof.
  unfold gen_truck; intro Hg.
  do 5 (apply G_bind_ok in Hg as (? & ? & _ & Hg)).
  cbv [mret G_ret] in Hg. by injection Hg as <- _.
Qed.

Lemma gen_driver_id (i : nat) (st st' : g) (d : driver) :
  gen_driver i st = (Ok d, st') ->
  dr_driver_id d = "D-" ++ pretty (2000 + N.of_nat i)%N.
Proof.
  unfold gen_driver; intro Hg.
  do 3 (apply G_bind_ok in Hg as (? & ? & _ & Hg)).
  cbv [mret G_ret] in Hg. by injection Hg as <- _.
Qed.

Lemma gen_load_id (isoformat : datetime -> string) (start : datetime)
    (j : nat) (st st' : g) (l : load) :
  gen_load isoformat start j st = (Ok l, st') ->
  l_load_id l = "L-" ++ pretty (7000 + N.of_nat j)%N.
Proof.
  unfold gen_load; intro Hg.
  do 8 (apply G_bind_ok in Hg as (? & ? & _ & Hg)).
  cbv [mret G_ret] in Hg. by injection Hg as <- _.
Qed.

(** The shape of a successful [generate_dispatch]. *)
Lemma dispatch_ok (loads : list load) (trucks : list truck)
    (drivers : list driver) (st st' : g) (ds : list dispatch) :
  generate_dispatch loads trucks drivers st = (Ok ds, st') ->
  Forall2 (fun l dp =>
    dp_id dp = "DP-" ++ l_load_id l /\ dp_load_id dp = l_load_id l /\
    dp_dispatch_time dp = l_pickup_time l /\
    In (dp_truck_id dp) (map t_truck_id trucks) /\
    In (dp_driver_id dp) (map dr_driver_id drivers)) loads ds.
Proof.
  revert st st' ds. induction loads as [|l ls IH]; intros st st' ds Hg;
    cbn in Hg.
  - cbv [mret G_ret] in Hg. injection Hg as <- _. constructor.
  - apply G_bind_ok in Hg as (t & st1 & E1 & Hg).
    apply G_bind_ok in Hg as (d & st2 & E2 & Hg).
    apply G_bind_ok in Hg as (rest & st3 & E3 & Hg).
    cbv [mret G_ret] in Hg. injection Hg as <- _.
    constructor; [|by eapply IH].
    cbn. repeat split; try reflexivity.
    + apply in_map. by eapply choice_in.
    + apply in_map. by eapply choice_in.
Qed.

Lemma dispatch_total (loads : list load) (trucks : list truck)
    (drivers : list driver) (st : g) :
  @randbelow_in_range g _ -> trucks <> [] -> drivers <> [] ->
  exists ds st', generate_dispatch loads trucks drivers st = (Ok ds, st').
Proof.
  intros RB Ht Hd. revert st. induction loads as [|l ls IH]; intro st; cbn.
  - eexists _, _. reflexivity.
  - destruct (choice_ok trucks st RB Ht) as (t & st1 & E1 & _).
    rewrite (G_bind_step _ _ _ _ _ E1).
    destruct (choice_ok drivers st1 RB Hd) as (d & st2 & E2 & _).
    rewrite (G_bind_step _ _ _ _ _ E2).
    destruct (IH st2) as (ds & st3 & E3).
    rewrite (G_bind_step _ _ _ _ _ E3).
    eexists _, _. reflexivity.
Qed.

Lemma dispatch_empty_pool (loads : list load) (trucks : list truck)
    (drivers : list driver) (st : g) :
  loads <> [] -> trucks = [] \/ drivers = [] ->
  exists e st', generate_dispatch loads trucks drivers st = (Raise e, st') /\
    exc_class e = "IndexError".
Proof.
  intros Hl Hp. destruct loads as [|l ls]; [done|]. cbn.
  cbv [mbind G_bind].
  destruct (choice trucks st) as [[t|e] st1] eqn:E1.
  - destruct Hp as [ -> | -> ]; [discriminate|].
    cbn. eexists _, _. split; reflexivity.
  - exists e, st1. split; [done|]. by eapply choice_raise.
Qed.

(** The shape of a successful [generate_exceptions]. *)
Lemma exceptions_ok (loads : list load) (rate : float) (st st' : g)
    (xs : list exception) :
  generate_exceptions loads rate st = (Ok xs, st') ->
  exists picked, sublist picked loads /\
    Forall2 (fun l x =>
      x = Exception ("EX-" ++ l_load_id l) (l_load_id l) (ex_exception_type x)
                    None (l_delivery_deadline l) /\
      In (ex_exception_type x) EXCEPTION_TYPES) picked xs.
Proof.
  revert st st' xs. induction loads as [|l ls IH]; intros st st' xs Hg;
    cbn in Hg.
  - cbv [mret G_ret] in Hg. injection Hg as <- _.
    exists []. split; constructor.
  - apply G_bind_ok in Hg as (x & st1 & _ & Hg).
    destruct (float_lt x rate).
    + apply G_bind_ok in Hg as (et & st2 & E2 & Hg).
      apply G_bind_ok in Hg as (rest & st3 & E3 & Hg).
      cbv [mret G_ret] in Hg. injection Hg as <- _.
      destruct (IH _ _ _ E3) as (picked & Hs & Hf).
      exists (l :: picked). split; [by apply sublist_skip|].
      constructor; [|done]. split; [reflexivity|].
      exact (choice_in _ _ _ _ E2).
    + destruct (IH _ _ _ Hg) as (picked & Hs & Hf).
      exists picked. split; [by apply sublist_cons|done].
Qed.

Lemma exceptions_total (loads : list load) (rate : float) (st : g) :
  @randbelow_in_range g _ ->
  exists xs st', generate_exceptions loads rate st = (Ok xs, st').
Proof.
  intro RB. revert st. induction loads as [|l ls IH]; intro st; cbn.
  - eexists _, _. reflexivity.
  - destruct (random st) as [x st1] eqn:E0.
    assert (E1 : random_float st = (Ok x, st1))
      by (unfold random_float; by rewrite E0).
    rewrite (G_bind_step _ _ _ _ _ E1).
    destruct (float_lt x rate).
    + destruct (choice_ok EXCEPTION_TYPES st1 RB ltac:(discriminate))
        as (et & st2 & E2 & _).
      rewrite (G_bind_step _ _ _ _ _ E2).
      destruct (IH st2) as (xs & st3 & E3).
      rewrite (G_bind_step _ _ _ _ _ E3).
      eexists _, _. reflexivity.
    + apply IH.
Qed.

Lemma Forall2_keys {A} (key : A -> string) (h : nat -> string) (i n : nat)
    (xs : list A) :
  Forall2 (fun j x => key x = h j) (seq i n) xs ->
  map key xs = map h (seq i n).
Proof. induction 1 as [|j x js xs' Hjx _ IH]; cbn; [done|]. by rewrite Hjx, IH. Qed.

Lemma main_ok (isoformat : datetime -> string) (start : datetime)
    (st st' : g) (d : main_data) :
  main_generate isoformat start st = (Ok d, st') ->
  exists loads picked xs,
    map t_truck_id (m_trucks d) =
      map (fun i : nat => "T-" ++ pretty (1000 + N.of_nat i)%N) (seq 0 25) /\
    map dr_driver_id (m_drivers d) =
      map (fun i : nat => "D-" ++ pretty (2000 + N.of_nat i)%N) (seq 0 50) /\
    map l_load_id loads =
      map (fun j : nat => "L-" ++ pretty (7000 + N.of_nat j)%N) (seq 0 500) /\
    m_loads d = anchor_load :: loads /\
    Forall2 (fun l dp =>
      dp_id dp = "DP-" ++ l_load_id l /\ dp_load_id dp = l_load_id l /\
      dp_dispatch_time dp = l_pickup_time l /\
      In (dp_truck_id dp) (map t_truck_id (m_trucks d)) /\
      In (dp_driver_id dp) (map dr_driver_id (m_drivers d)))
      loads (m_dispatch d) /\
    sublist picked loads /\
    Forall2 (fun l x =>
      x = Exception ("EX-" ++ l_load_id l) (l_load_id l) (ex_exception_type x)
                    None (l_delivery_deadline l) /\
      In (ex_exception_type x) EXCEPTION_TYPES) picked xs /\
    m_exceptions d = (xs ++ [anchor_exception])%list.
Proof.
  unfold main_generate. intro Hg.
  apply G_bind_ok in Hg as (trucks & st1 & E1 & Hg).
  apply G_bind_ok in Hg as (drivers & st2 & E2 & Hg).
  apply G_bind_ok in Hg as (loads & st3 & E3 & Hg).
  apply G_bind_ok in Hg as (ds & st4 & E4 & Hg).
  apply G_bind_ok in Hg as (exs & st5 & E5 & Hg).
  cbv [inject_anchor_exception mret G_ret] in Hg. injection Hg as <- _.
  destruct (exceptions_ok _ _ _ _ _ E5) as (picked & Hs & Hx).
  exists loads, picked, exs. cbn [m_trucks m_drivers m_loads m_dispatch
    m_exceptions].
  split; [apply Forall2_keys; eapply gen_list_ok; [|exact E1];
          intros ? ? ? ?; apply gen_truck_id|].
  split; [apply Forall2_keys; eapply gen_list_ok; [|exact E2];
          intros ? ? ? ?; apply gen_driver_id|].
  split; [apply Forall2_keys; eapply gen_list_ok; [|exact E3];
          intros ? ? ? ?; apply gen_load_id|].
  split; [done|]. split; [by eapply dispatch_ok|]. by repeat split.
Qed.

Lemma main_total (isoformat : datetime -> string) (start : datetime)
    (st : g) :
  @randbelow_in_range g _ ->
  exists d st', main_generate isoformat start st = (Ok d, st').
Proof.
  intro RB. unfold main_generate.
  destruct (gen_list_total gen_truck (fun _ _ => True)
              (fun j st => match gen_truck_total j st RB with
                           | ex_intro _ t (ex_intro _ st' (conj E _)) =>
                               ex_intro _ t (ex_intro _ st' (conj E I))
                           end) 25 0 st) as (trucks & st1 & E1 & F1).
  rewrite (G_bind_step _ _ _ _ _ E1).
  destruct (gen_list_total gen_driver (fun _ _ => True)
              (fun j st => match gen_driver_total j st RB with
                           | ex_intro _ t (ex_intro _ st' (conj E _)) =>
                               ex_intro _ t (ex_intro _ st' (conj E I))
                           end) 50 0 st1) as (drivers & st2 & E2 & F2).
  rewrite (G_bind_step _ _ _ _ _ E2).
  destruct (gen_list_total (gen_load isoformat start) (fun _ _ => True)
              (fun j st => match gen_load_total isoformat start j st RB with
                           | ex_intro _ t (ex_intro _ st' (conj E _)) =>
                               ex_intro _ t (ex_intro _ st' (conj E I))
                           end) 500 0 st2) as (loads & st3 & E3 & F3).
  rewrite (G_bind_step _ _ _ _ _ E3).
  destruct (dispatch_total loads trucks drivers st3 RB) as (ds & st4 & E4).
  { apply Forall2_length in F1. cbn in F1. by destruct trucks. }
  { apply Forall2_length in F2. cbn in F2. by destruct drivers. }
  rewrite (G_bind_step _ _ _ _ _ E4).
  destruct (exceptions_total loads float_0_03 st4 RB) as (exs & st5 & E5).
  rewrite (G_bind_step _ _ _ _ _ E5).
  eexists _, _. reflexivity.
Qed.

Lemma NoDup_map_inj {A B} (f : A -> B) (l : list A) :
  Inj (=) (=) f -> NoDup l -> NoDup (map f l).
Proof.
  intros Hf Hl. induction Hl as [|x l Hx Hl IH]; cbn; constructor; [|done].
  intros Hin. apply list_elem_of_In, in_map_iff in Hin as (y & Hy & Hyl).
  apply Hf in Hy. subst. by apply Hx, list_elem_of_In.
Qed.

Lemma in_map_seq {A} (f : nat -> A) (i n : nat) (x : A) :
  In x (map f (seq i n)) -> exists j, x = f j /\ i <= j < i + n.
Proof.
  intro Hx. apply in_map_iff in Hx as (j & <- & Hj). apply in_seq in Hj.
  eauto.
Qed.

Lemma sublist_map {A B} (f : A -> B) (l1 l2 : list A) :
  sublist l1 l2 -> sublist (map f l1) (map f l2).
Proof. induction 1; cbn; by constructor. Qed.

Lemma L_dash_inj :
  Inj (=) (=) (fun j : nat => "L-" ++ pretty (7000 + N.of_nat j)%N).
Proof.
  intros j1 j2 Hj. apply (inj (String.append "L-")) in Hj.
  apply (inj (pretty (A:=N))) in Hj. lia.
Qed.

Lemma T_dash_inj :
  Inj (=) (=) (fun j : nat => "T-" ++ pretty (1000 + N.of_nat j)%N).
Proof.
  intros j1 j2 Hj. apply (inj (String.append "T-")) in Hj.
  apply (inj (pretty (A:=N))) in Hj. lia.
Qed.

Lemma D_dash_inj :
  Inj (=) (=) (fun j : nat => "D-" ++ pretty (2000 + N.of_nat j)%N).
Proof.
  intros j1 j2 Hj. apply (inj (String.append "D-")) in Hj.
  apply (inj (pretty (A:=N))) in Hj. lia.
Qed.

(** None of the generated load ids ["L-7000"] .. ["L-7499"] is the
    anchor's. *)
Lemma generated_not_anchor (j : nat) :
  j < 500 -> "L-" ++ pretty (7000 + N.of_nat j)%N <> "L-7712".
Proof.
  intros Hj E.
  assert (Ha : "L-7712" = "L-" ++ pretty 7712%N) by (vm_compute; reflexivity).
  rewrite Ha in E. apply (inj (String.append "L-")), (inj (pretty (A:=N))) in E.
  lia.
Qed.

Lemma NoDup_app_tag (tag : string -> string) (t : string)
    (l1 l2 : list string) :
  NoDup l1 -> NoDup l2 -> Forall (fun x => tag x = t) l1 ->
  Forall (fun x => tag x <> t) l2 -> NoDup (l1 ++ l2).
Proof.
  intros N1 N2 F1 F2. apply NoDup_app. split; [done|]. split; [|done].
  intros x H1 H2. rewrite Forall_forall in F1, F2.
  by apply (F2 x H2), F1.
Qed.

(** The first two characters of a string. *)
Local Abbreviation tag2 := (fun s : string =>
  match s with
  | String a (String b _) => String a (String b EmptyString)
  | _ => s
  end).

Lemma Forall_tag_map {A} (tag : string -> string) (f : A -> string)
    (p : string) (l : list A) :
  (forall x, tag (f x) = p) -> Forall (fun x => tag x = p) (map f l).
Proof. intro Hf. apply Forall_map, Forall_forall. intros x _. apply Hf. Qed.

Lemma record_ids (d : main_data) :
  map (fun r : record => r !! "id") (main_records d) =
  map (fun s => Some (JStr s))
    (map t_truck_id (m_trucks d) ++ map dr_driver_id (m_drivers d) ++
     map l_load_id (m_loads d) ++ map dp_id (m_dispatch d) ++
     map ex_id (m_exceptions d))%list.
Proof.
  assert (E1 : forall t, truck_to_record t !! "id" = Some (JStr (t_truck_id t)))
    by (intro; vm_compute; reflexivity).
  assert (E2 : forall x, driver_to_record x !! "id" = Some (JStr (dr_driver_id x)))
    by (intro; vm_compute; reflexivity).
  assert (E3 : forall l, load_to_record l !! "id" = Some (JStr (l_load_id l)))
    by (intro; vm_compute; reflexivity).
  assert (E4 : forall x, dispatch_to_record x !! "id" = Some (JStr (dp_id x)))
    by (intro; vm_compute; reflexivity).
  assert (E5 : forall x, exception_to_record x !! "id" = Some (JStr (ex_id x)))
    by (intros [i li t [m|] at']; vm_compute; reflexivity).
  unfold main_records. rewrite !map_app, !map_map.
  by rewrite (map_ext _ _ E1), (map_ext _ _ E2), (map_ext _ _ E3),
    (map_ext _ _ E4), (map_ext _ _ E5).
Qed.

Lemma Forall_tag_map_ne {A} (tag : string -> string) (f : A -> string)
    (p : string) (l : list A) :
  (forall x, tag (f x) <> p) -> Forall (fun x => tag x <> p) (map f l).
Proof. intro Hf. apply Forall_map, Forall_forall. intros x _. apply Hf. Qed.

Ltac tag_ne := let E := fresh in intro E; cbv [String.append] in E;
  discriminate E.

Lemma main_ids_NoDup (isoformat : datetime -> string) (start : datetime)
    (st st' : g) (d : main_data) :
  main_generate isoformat start st = (Ok d, st') ->
  NoDup (map t_truck_id (m_trucks d) ++ map dr_driver_id (m_drivers d) ++
         map l_load_id (m_loads d) ++ map dp_id (m_dispatch d) ++
         map ex_id (m_exceptions d))%list.
Proof.
  intro Hg.
  destruct (main_ok _ _ _ _ _ Hg)
    as (loads & picked & xs & HT & HD & HL & -> & Hdp & Hs & Hx & ->).
  set (fL := fun j : nat => "L-" ++ pretty (7000 + N.of_nat j)%N) in HL.
  assert (HDP : map dp_id (m_dispatch d) =
                map (fun j => "DP-" ++ fL j) (seq 0 500)).
  { rewrite <- (map_map fL (fun s => "DP-" ++ s)), <- HL.
    clear - Hdp. induction Hdp as [|l dp ls dps (E & _) _ IH]; cbn; [done|].
    by rewrite E, IH. }
  assert (HX : map ex_id xs = map (fun l => "EX-" ++ l_load_id l) picked).
  { clear - Hx. induction Hx as [|l x ls xs' (E & _) _ IH]; cbn; [done|].
    by rewrite E, IH. }
  assert (HXs : sublist (map ex_id xs)
                  (map (fun j => "EX-" ++ fL j) (seq 0 500))).
  { rewrite HX, <- (map_map fL (fun s => "EX-" ++ s)), <- HL,
      <- (map_map l_load_id (fun s => "EX-" ++ s)).
    by apply sublist_map, sublist_map. }
  assert (HXt : forall p, tag2 "EX" <> p ->
            Forall (fun x => tag2 x <> p) (map ex_id xs ++ ["EX-7712"])).
  { intros p Hp. apply Forall_app. split; [|by constructor].
    apply Forall_forall. intros x Hin.
    pose proof (elem_of_sublist _ _ x Hin HXs) as Hm.
    by apply list_elem_of_In, in_map_seq in Hm as (j & -> & _). }
  rewrite HT, HD, HDP. cbn [map]. rewrite HL, map_app. cbn [map].
  apply (NoDup_app_tag (fun s => tag2 s) "T-").
  { apply NoDup_map_inj; [apply T_dash_inj|apply NoDup_seq]. }
  2: { apply Forall_tag_map. intros x; reflexivity. }
  2: { rewrite !Forall_app. split; [|split; [|split]].
       - apply Forall_tag_map_ne. intro; tag_ne.
       - constructor; [tag_ne|]. apply Forall_tag_map_ne. intro; tag_ne.
       - apply Forall_tag_map_ne. intro; tag_ne.
       - apply Forall_app, HXt. tag_ne. }
  apply (NoDup_app_tag (fun s => tag2 s) "D-").
  { apply NoDup_map_inj; [apply D_dash_inj|apply NoDup_seq]. }
  2: { apply Forall_tag_map. intros x; reflexivity. }
  2: { rewrite !Forall_app. split; [|split].
       - constructor; [tag_ne|]. apply Forall_tag_map_ne. intro; tag_ne.
       - apply Forall_tag_map_ne. intro; tag_ne.
       - apply Forall_app, HXt. tag_ne. }
  apply (NoDup_app_tag (fun s => tag2 s) "L-").
  { constructor.
    - intro Hin. apply list_elem_of_In, in_map_seq in Hin as (j & E & Hj).
      symmetry in E. by apply (generated_not_anchor j); [lia|].
    - apply NoDup_map_inj; [apply L_dash_inj|apply NoDup_seq]. }
  2: { constructor; [reflexivity|]. apply Forall_tag_map. intros x; reflexivity. }
  2: { rewrite !Forall_app. split.
       - apply Forall_tag_map_ne. intro; tag_ne.
       - apply Forall_app, HXt. tag_ne. }
  apply (NoDup_app_tag (fun s => tag2 s) "DP").
  { apply NoDup_map_inj; [|apply NoDup_seq].
    intros j1 j2 E. apply (inj (String.append "DP-")) in E.
    by apply L_dash_inj. }
  2: { apply Forall_tag_map. intros x; reflexivity. }
  2: { apply HXt. tag_ne. }
  apply NoDup_app. split; [|split].
  - eapply sublist_NoDup; [|exact HXs].
    apply NoDup_map_inj; [|apply NoDup_seq].
    intros j1 j2 E. apply (inj (String.append "EX-")) in E.
    by apply L_dash_inj.
  - intros x Hin Hx'. apply list_elem_of_singleton in Hx' as ->.
    pose proof (elem_of_sublist _ _ _ Hin HXs) as Hm.
    apply list_elem_of_In, in_map_seq in Hm as (j & E & _).
    unfold fL in E. cbv [String.append] in E. discriminate E.
  - apply NoDup_singleton.
Qed.

Lemma upsert_item_fresh (c : list record) (x : record) (s : string) :
  x !! "id" = Some (JStr s) ->
  Forall (fun y => exists s', y !! "id" = Some (JStr s')) c ->
  Some (JStr s) ∉ map (fun r : record => r !! "id") c ->
  DataCosmos.upsert_item c x = (c ++ [x])%list.
Proof.
  intros Hx. induction c as [|y c IH]; intros Hc Hn; cbn; [done|].
  apply Forall_cons in Hc as [(s' & Hy) Hc].
  unfold DataCosmos.same_item. rewrite Hy, Hx. cbn.
  destruct (String.eqb s' s) eqn:E.
  - apply String.eqb_eq in E as ->. exfalso. apply Hn. cbn. rewrite Hy.
    by left.
  - cbn. f_equal. apply IH; [done|]. intro Hin. apply Hn. cbn. by right.
Qed.

Lemma upsert_items_fresh (c items : list record) :
  Forall (fun y => exists s, y !! "id" = Some (JStr s)) (c ++ items) ->
  NoDup (map (fun r : record => r !! "id") (c ++ items)) ->
  DataCosmos.upsert_items c items = (c ++ items)%list.
Proof.
  revert c. induction items as [|x xs IH]; intros c Hs Hn.
  - by rewrite app_nil_r.
  - unfold DataCosmos.upsert_items. cbn [fold_left].
    apply Forall_app in Hs as [Hc Hxs].
    apply Forall_cons in Hxs as [(s & Hx) Hxs].
    rewrite map_app in Hn. apply NoDup_app in Hn as (Hnc & Hdis & Hnx).
    rewrite (upsert_item_fresh c x s Hx Hc).
    2: { intro Hin. apply (Hdis _ Hin). cbn. rewrite Hx. by left. }
    replace (c ++ x :: xs)%list with ((c ++ [x]) ++ xs)%list
      by (by rewrite <- app_assoc).
    apply IH.
    + apply Forall_app. split; [apply Forall_app; split|]; [done| |done].
      constructor; [by exists s|constructor].
    + rewrite <- app_assoc, map_app. cbn [app]. by apply NoDup_app.
Qed.

Lemma main_upserts_records (isoformat : datetime -> string)
    (start : datetime) (st st' : g) (d : main_data) :
  main_generate isoformat start st = (Ok d, st') ->
  main_upserts d [] = main_records d.
Proof.
  intro Hg. unfold main_upserts, DataCosmos.upsert_items.
  rewrite <- !fold_left_app.
  change (fold_left DataCosmos.upsert_item (main_records d) [] =
          ([] ++ main_records d)%list).
  apply upsert_items_fresh.
  - cbn [app]. unfold main_records. rewrite !Forall_app.
    repeat split; apply Forall_map, Forall_forall; intros x _;
      [exists (t_truck_id x) | exists (dr_driver_id x) | exists (l_load_id x)
      | exists (dp_id x) | exists (ex_id x)];
      [vm_compute; reflexivity .. | destruct x as [i li t [m|] at'];
                                    vm_compute; reflexivity].
  - cbn [app]. rewrite record_ids. apply NoDup_map_inj.
    + intros s1 s2 E. by injection E.
    + eapply main_ids_NoDup, Hg.
Qed.

Lemma Forall2_in_r {A B} (R : A -> B -> Prop) (l1 : list A) (l2 : list B)
    (y : B) :
  Forall2 R l1 l2 -> In y l2 -> exists x, In x l1 /\ R x y.
Proof.
  induction 1 as [|x y' l1' l2' Hxy _ IH]; intros Hin; [done|].
  destruct Hin as [<-|Hin].
  - exists x. split; [by left|done].
  - destruct (IH Hin) as (x' & Hx' & Hr). exists x'. split; [by right|done].
Qed.

(** Only the two anchor documents of the written records carry the
    [load_id] ["L-7712"]. *)
Lemma main_filter_anchor (isoformat : datetime -> string) (start : datetime)
    (st st' : g) (d : main_data) (f : record -> bool) :
  main_generate isoformat start st = (Ok d, st') ->
  (forall r, f r = true -> r !! "load_id" = Some (JStr "L-7712")) ->
  List.filter f (main_records d) =
    ((if f (load_to_record anchor_load) then [load_to_record anchor_load]
      else []) ++
     (if f (exception_to_record anchor_exception)
      then [exception_to_record anchor_exception] else []))%list.
Proof.
  intros Hg Hf.
  destruct (main_ok _ _ _ _ _ Hg)
    as (loads & picked & xs & HT & HD & HL & HLd & Hdp & Hs & Hx & HXd).
  assert (Hfresh : forall l, In l loads -> l_load_id l <> "L-7712").
  { intros l Hl E. apply (in_map l_load_id) in Hl. rewrite HL in Hl.
    apply in_map_seq in Hl as (j & Ej & Hj). rewrite E in Ej. symmetry in Ej.
    by apply (generated_not_anchor j); [lia|]. }
  assert (Hno : forall r, r !! "load_id" = None -> f r = false).
  { intros r Hr. destruct (f r) eqn:E; [|done]. apply Hf in E. congruence. }
  assert (Hid : forall r x, r !! "load_id" = Some (JStr x) -> x <> "L-7712" ->
            f r = false).
  { intros r x Hr Hx'. destruct (f r) eqn:E; [|done]. apply Hf in E.
    rewrite Hr in E. by injection E. }
  unfold main_records. rewrite HLd, HXd. cbn [map]. rewrite map_app.
  rewrite !List.filter_app. cbn [List.filter].
  rewrite (filter_none _ (map truck_to_record (m_trucks d))).
  2: { intros r Hr. apply in_map_iff in Hr as (t & <- & _). apply Hno.
       vm_compute; reflexivity. }
  rewrite (filter_none _ (map driver_to_record (m_drivers d))).
  2: { intros r Hr. apply in_map_iff in Hr as (t & <- & _). apply Hno.
       vm_compute; reflexivity. }
  rewrite (filter_none _ (map load_to_record loads)).
  2: { intros r Hr. apply in_map_iff in Hr as (l & <- & Hl).
       apply (Hid _ (l_load_id l)); [vm_compute; reflexivity|].
       by apply Hfresh. }
  rewrite (filter_none _ (map dispatch_to_record (m_dispatch d))).
  2: { intros r Hr. apply in_map_iff in Hr as (dp & <- & Hdp').
       destruct (Forall2_in_r _ _ _ _ Hdp Hdp') as (l & Hl & _ & E & _).
       apply (Hid _ (dp_load_id dp)); [vm_compute; reflexivity|].
       rewrite E. by apply Hfresh. }
  rewrite (filter_none _ (map exception_to_record xs)).
  2: { intros r Hr. apply in_map_iff in Hr as (x & <- & Hx').
       destruct (Forall2_in_r _ _ _ _ Hx Hx') as (l & Hl & Ex & _).
       apply (Hid _ (ex_load_id x)).
       - rewrite Ex. vm_compute; reflexivity.
       - rewrite Ex. cbn [ex_load_id]. apply Hfresh.
         apply list_elem_of_In. eapply elem_of_sublist; [|exact Hs].
         by apply list_elem_of_In. }
  cbn [app map List.filter].
  by destruct (f (exception_to_record anchor_exception)).
Qed.


(** ** Properties of the generator and of [main] *)

(** The loads [generate_loads(n, start_date)] builds are numbered
    ["L-7000"], ["L-7001"], ... in order, so their [load_id]s (the
    partition key) are pairwise distinct. *)
Theorem generate_loads_ids (isoformat : datetime -> string) (n : nat)
    (start : datetime) (st st' : g) (loads : list load) :
  generate_loads isoformat n start st = (Ok loads, st') ->
  map l_load_id loads =
    map (fun j : nat => "L-" ++ pretty (7000 + N.of_nat j)%N) (seq 0 n) /\
  NoDup (map l_load_id loads).
Proof.
  intro Hg.
  assert (Hm : map l_load_id loads =
    map (fun j : nat => "L-" ++ pretty (7000 + N.of_nat j)%N) (seq 0 n)).
  { apply Forall2_keys. eapply gen_list_ok; [|exact Hg].
    intros ? ? ? ?; apply gen_load_id. }
  split; [done|]. rewrite Hm. apply NoDup_map_inj; [apply L_dash_inj|].
  apply NoDup_seq.
Qed.


(** What [main] writes: 25 trucks, 50 drivers, 501 loads with the
    anchor load first, one dispatch per generated load (500) and none for
    the anchor load ["L-7712"], and between 1 and 501 exceptions, the
    anchor exception last. *)
Theorem main_counts (isoformat : datetime -> string) (start : datetime)
    (st st' : g) (d : main_data) :
  main_generate isoformat start st = (Ok d, st') ->
  length (m_trucks d) = 25 /\ length (m_drivers d) = 50 /\
  length (m_loads d) = 501 /\ length (m_dispatch d) = 500 /\
  1 <= length (m_exceptions d) <= 501 /\
  hd_error (m_loads d) = Some anchor_load /\
  (exists xs, m_exceptions d = (xs ++ [anchor_exception])%list) /\
  map dp_load_id (m_dispatch d) = map l_load_id (tl (m_loads d)) /\
  ~ In "L-7712" (map dp_load_id (m_dispatch d)).
Proof.
  intro Hg.
  destruct (main_ok _ _ _ _ _ Hg)
    as (loads & picked & xs & HT & HD & HL & HLd & Hdp & Hs & Hx & HXd).
  apply (f_equal (@length _)) in HT, HD, HL.
  rewrite !length_map, length_seq in HT, HD, HL.
  assert (Hdl : map dp_load_id (m_dispatch d) = map l_load_id loads).
  { clear - Hdp. induction Hdp as [|l dp ls dps (_ & E & _) _ IH]; cbn;
      [done|]. by rewrite E, IH. }
  rewrite HLd, HXd. cbn [length tl hd_error].
  split; [done|]. split; [done|]. split; [lia|].
  split; [by rewrite <- (Forall2_length _ _ _ Hdp)|].
  split.
  { rewrite length_app. cbn [length].
    pose proof (Forall2_length _ _ _ Hx) as Hpx.
    pose proof (sublist_length _ _ Hs). lia. }
  split; [done|]. split; [by exists xs|]. split; [done|].
  rewrite Hdl. intro Hin. apply in_map_iff in Hin as (l & E & Hl).
  apply (in_map l_load_id) in Hl. destruct (main_ok _ _ _ _ _ Hg)
    as (loads' & _ & _ & _ & _ & HL' & HLd' & _).
  rewrite HLd in HLd'. injection HLd' as <-. rewrite HL', E in Hl.
  apply in_map_seq in Hl as (j & Ej & Hj). symmetry in Ej.
  by apply (generated_not_anchor j); [lia|].
Qed.


(** With a [_randbelow] that keeps its contract, [generate_trucks(n)]
    and [generate_drivers(m)] return (never raise) [n] trucks numbered
    ["T-1000"], ... and [m] drivers numbered ["D-2000"], ..., with every
    drawn field in the range or list the code draws it from. *)
Theorem generate_trucks_drivers_fields (n m : nat) (st1 st2 : g) :
  @randbelow_in_range g _ ->
  (exists trucks st', generate_trucks n st1 = (Ok trucks, st') /\
    Forall2 (fun i t =>
      t_truck_id t = "T-" ++ pretty (1000 + N.of_nat i)%N /\
      In (t_make t) ["Peterbilt"; "Kenworth"; "Freightliner"] /\
      In (t_model t) ["579"; "T680"; "Cascadia"] /\
      (2019 <= t_year t <= 2024)%N /\
      (150000 <= t_odometer_miles t <= 650000)%N /\
      In (t_home_terminal t) ["DAL"; "PHX"; "DEN"; "ATL"]) (seq 0 n) trucks) /\
  (exists drivers st', generate_drivers m st2 = (Ok drivers, st') /\
    Forall2 (fun i d =>
      dr_driver_id d = "D-" ++ pretty (2000 + N.of_nat i)%N /\
      (70 <= dr_safety_score d <= 99)%N /\
      In (dr_home_base d)
         ["Dallas, TX"; "Phoenix, AZ"; "Denver, CO"; "Atlanta, GA"])
      (seq 0 m) drivers).
Proof.
  intro RB. split; apply gen_list_total; intros i st0.
  - exact (gen_truck_total i st0 RB).
  - exact (gen_driver_total i st0 RB).
Qed.

(** [generate_dispatch(loads, trucks, drivers)]: a returned list has one
    dispatch per load, in order, with id ["DP-" ++ load_id], the load's
    pickup time, and a truck and a driver of the given pools; with a
    non-empty [loads] and an empty pool it raises [IndexError]; with
    non-empty pools (and [_randbelow] keeping its contract) it returns. *)
Theorem generate_dispatch_spec (loads : list load) (trucks : list truck)
    (drivers : list driver) (st : g) :
  (forall st' ds, generate_dispatch loads trucks drivers st = (Ok ds, st') ->
    Forall2 (fun l dp =>
      dp_id dp = "DP-" ++ l_load_id l /\ dp_load_id dp = l_load_id l /\
      dp_dispatch_time dp = l_pickup_time l /\
      In (dp_truck_id dp) (map t_truck_id trucks) /\
      In (dp_driver_id dp) (map dr_driver_id drivers)) loads ds) /\
  (loads <> [] -> trucks = [] \/ drivers = [] ->
    exists e st', generate_dispatch loads trucks drivers st = (Raise e, st') /\
      exc_class e = "IndexError") /\
  (@randbelow_in_range g _ -> trucks <> [] -> drivers <> [] ->
    exists ds st', generate_dispatch loads trucks drivers st = (Ok ds, st')).
Proof.
  split; [|split].
  - intros st' ds. apply dispatch_ok.
  - apply dispatch_empty_pool.
  - apply dispatch_total.
Qed.

(** [generate_exceptions(loads, rate)]: a returned list has at most one
    exception per load, for a subsequence of the loads in order, each
    with id ["EX-" ++ load_id], the load's deadline as [detected_at], no
    [delay_minutes] and a type from the code's list; with [_randbelow]
    keeping its contract it never raises. *)
Theorem generate_exceptions_spec (loads : list load) (rate : float) (st : g) :
  (forall st' xs, generate_exceptions loads rate st = (Ok xs, st') ->
    length xs <= length loads /\
    exists picked, sublist picked loads /\
      Forall2 (fun l x =>
        x = Exception ("EX-" ++ l_load_id l) (l_load_id l)
                      (ex_exception_type x) None (l_delivery_deadline l) /\
        In (ex_exception_type x) EXCEPTION_TYPES) picked xs) /\
  (@randbelow_in_range g _ ->
    exists xs st', generate_exceptions loads rate st = (Ok xs, st')).
Proof.
  split.
  - intros st' xs Hg. destruct (exceptions_ok _ _ _ _ _ Hg) as (p & Hs & Hf).
    split; [|by exists p].
    rewrite <- (Forall2_length _ _ _ Hf). by apply sublist_length.
  - apply exceptions_total.
Qed.

(** The records [main] writes have pairwise distinct ids, so the five
    [upsert_items] calls into an empty container overwrite nothing: the
    container ends up holding exactly the written records, in order. *)
Theorem main_store_ids_distinct (isoformat : datetime -> string)
    (start : datetime) (st st' : g) (d : main_data) :
  main_generate isoformat start st = (Ok d, st') ->
  main_upserts d [] = main_records d /\
  NoDup (map (fun r : record => r !! "id") (main_records d)).
Proof.
  intro Hg. split; [exact (main_upserts_records _ _ _ _ _ Hg)|].
  rewrite record_ids. apply NoDup_map_inj.
  - intros s1 s2 E. by injection E.
  - exact (main_ids_NoDup _ _ _ _ _ Hg).
Qed.

(** After [main] has written into an empty container, the operations
    store (with no service fault) answers [get_load_context("L-7712")]
    with exactly the anchor load and the anchor exception, and
    [get_exceptions("L-7712")] with exactly the anchor exception, whatever
    the random draws were. *)
Theorem main_anchor_retrievable (isoformat : datetime -> string)
    (start : datetime) (st st' : g) (d : main_data) (s : CosmosStore.store) :
  main_generate isoformat start st = (Ok d, st') ->
  CosmosStore.store_wf s ->
  fst (CosmosStore.get_load_context
         (CosmosStore.World (main_upserts d []) None None) "L-7712" s) =
    Ok [load_to_record anchor_load; exception_to_record anchor_exception] /\
  fst (CosmosStore.get_exceptions
         (CosmosStore.World (main_upserts d []) None None) "L-7712" s) =
    Ok [exception_to_record anchor_exception].
Proof.
  intros Hg Hwf. rewrite (main_upserts_records _ _ _ _ _ Hg).
  unfold CosmosStore.get_load_context, CosmosStore.get_exceptions. split.
  - destruct (StoreProps.store_op_total
      (CosmosStore.World (main_records d) None None)
      (CosmosStore.load_context_query "L-7712") s Hwf eq_refl eq_refl)
      as [s' ->].
    cbn [fst CosmosStore.w_items]. rewrite (main_filter_anchor _ _ _ _ _ _ Hg).
    + rewrite (proj2 (StoreProps.matches_load_context _ _)),
        (proj2 (StoreProps.matches_load_context _ _));
        [reflexivity | vm_compute; reflexivity ..].
    + intros r Hr. by apply StoreProps.matches_load_context.
  - destruct (StoreProps.store_op_total
      (CosmosStore.World (main_records d) None None)
      (CosmosStore.exceptions_query "L-7712") s Hwf eq_refl eq_refl)
      as [s' ->].
    cbn [fst CosmosStore.w_items]. rewrite (main_filter_anchor _ _ _ _ _ _ Hg).
    + assert (Hl : CosmosStore.matches (CosmosStore.exceptions_query "L-7712")
                     (load_to_record anchor_load) = false)
        by (vm_compute; reflexivity).
      rewrite Hl, (proj2 (StoreProps.matches_exceptions _ _));
        [reflexivity | split; vm_compute; reflexivity].
    + intros r Hr. by apply StoreProps.matches_exceptions.
Qed.

End Props.
End GeneratorProps.

(* ================================================================= *)
(** * Upserts into the generator's container *)

Module UpsertProps.
Import DataCosmos.

Lemma jvalue_eqb_spec : forall a b, jvalue_eqb a b = true <-> a = b.
Proof.
  fix IH 1. intros [x|x|x| |xs] [y|y|y| |ys]; cbn;
    try (split; [discriminate|congruence]).
  - rewrite String.eqb_eq. split; congruence.
  - rewrite Z.eqb_eq. split; congruence.
  - rewrite Bool.eqb_true_iff. split; congruence.
  - done.
  - revert xs ys. fix go 1. intros [|x xs] [|y ys]; cbn;
      try (split; [discriminate|congruence]); [done|].
    rewrite andb_true_iff, IH, go. split.
    + intros [-> H]. congruence.
    + intro H. injection H as -> ->. done.
Qed.

Lemma opt_jvalue_eqb_spec (a b : option jvalue) :
  opt_jvalue_eqb a b = true <-> a = b.
Proof.
  destruct a, b; cbn; rewrite ?jvalue_eqb_spec; split; congruence.
Qed.

Local Abbreviation item_key := (fun r : record => (r !! "id", r !! "load_id")).

Lemma same_item_spec (a b : record) :
  same_item a b = true <-> item_key a = item_key b.
Proof.
  unfold same_item. rewrite andb_true_iff, !opt_jvalue_eqb_spec.
  split; [intros [-> ->]; done|intro H; by injection H as -> ->].
Qed.


Lemma upsert_item_keys_incl (c : list record) (x : record) (k : _) :
  In k (map item_key (upsert_item c x)) -> In k (map item_key c) \/ k = item_key x.
Proof.
  induction c as [|y c IH]; cbn; [intros [<-|[]]; by right|].
  destruct (same_item y x) eqn:E; cbn.
  - intros [<-|H]; [by right|by left; right].
  - intros [<-|H]; [by left; left|]. destruct (IH H); [by left; right|by right].
Qed.

Lemma upsert_item_NoDup (c : list record) (x : record) :
  NoDup (map item_key c) -> NoDup (map item_key (upsert_item c x)).
Proof.
  induction c as [|y c IH]; cbn; intro Hn.
  - apply NoDup_singleton.
  - apply NoDup_cons in Hn as [Hy Hn].
    destruct (same_item y x) eqn:E; cbn.
    + apply same_item_spec in E. rewrite <- E. by apply NoDup_cons.
    + apply NoDup_cons. split; [|by apply IH].
      intro Hin. apply list_elem_of_In, upsert_item_keys_incl in Hin as [Hin|Hin].
      * by apply Hy, list_elem_of_In.
      * apply (proj2 (not_true_iff_false _) E), same_item_spec, Hin.
Qed.

Lemma upsert_item_in (c : list record) (x y : record) :
  NoDup (map item_key c) ->
  In y (upsert_item c x) <-> y = x \/ (In y c /\ item_key y <> item_key x).
Proof.
  induction c as [|z c IH]; cbn; intro Hn.
  - split; [intros [<-|[]]; by left|]. intros [->|[[] _]]. by left.
  - apply NoDup_cons in Hn as [Hz Hn].
    destruct (same_item z x) eqn:E; cbn.
    + apply same_item_spec in E. split.
      * intros [<-|H]; [by left|]. right. split; [by right|].
        rewrite <- E. intro Ek. apply Hz, list_elem_of_In.
        rewrite <- Ek. exact (in_map item_key _ _ H).
      * intros [->|[[<-|H] Hk]]; [by left|done|by right].
    + rewrite IH by done. split.
      * intros [<-|[->|[H Hk]]]; [right|by left|right].
        -- split; [by left|]. intro Ek. apply (proj2 (not_true_iff_false _) E),
             same_item_spec, Ek.
        -- split; [by right|done].
      * intros [->|[[<-|H] Hk]]; [by right; left|by left|by right; right].
Qed.

Lemma upsert_items_snoc (c items : list record) (x : record) :
  upsert_items c (items ++ [x]) = upsert_item (upsert_items c items) x.
Proof. unfold upsert_items. by rewrite fold_left_app. Qed.

Lemma upsert_items_NoDup (c items : list record) :
  NoDup (map item_key c) -> NoDup (map item_key (upsert_items c items)).
Proof.
  intro Hn. induction items as [|x items IH] using rev_ind; [done|].
  rewrite upsert_items_snoc. by apply upsert_item_NoDup.
Qed.

(** [upsert_items(items)] on a container whose items have distinct
    identities (id and partition key [load_id]) keeps them distinct, and an
    item is stored afterwards exactly when it is the last item of [items]
    with its identity, or it was stored before and no item of [items]
    shares its identity: the last write wins. *)
Theorem upsert_items_last_write_wins (c items : list record) :
  NoDup (map item_key c) ->
  NoDup (map item_key (upsert_items c items)) /\
  forall y, In y (upsert_items c items) <->
    (exists xs ys, items = (xs ++ y :: ys)%list /\
       Forall (fun z => item_key z <> item_key y) ys) \/
    (In y c /\ Forall (fun z => item_key z <> item_key y) items).
Proof.
  intro Hn. split; [by apply upsert_items_NoDup|].
  induction items as [|x items IH] using rev_ind; intro y.
  - cbn. split; [intro H; right; split; [done|constructor]|].
    intros [(xs & ys & E & _)|[H _]]; [|done]. by destruct xs.
  - rewrite upsert_items_snoc, upsert_item_in by (by apply upsert_items_NoDup).
    rewrite IH. split.
    + intros [->|[[(xs & ys & -> & Hf)|[Hc Hf]] Hk]].
      * left. exists items, []. split; [done|constructor].
      * left. exists xs, (ys ++ [x])%list. split; [by rewrite <- app_assoc|].
        apply Forall_app. split; [done|]. constructor; [|constructor].
        intro E. by apply Hk.
      * right. split; [done|]. apply Forall_app. split; [done|].
        constructor; [|constructor]. intro E. by apply Hk.
    + intros [(xs & ys & E & Hf)|[Hc Hf]].
      * destruct ys as [|z ys _] using rev_ind.
        -- apply app_inj_tail in E as [-> ->]. by left.
        -- rewrite app_comm_cons, app_assoc in E.
           apply app_inj_tail in E as [-> <-].
           apply Forall_app in Hf as [Hf Hz]. apply Forall_cons in Hz as [Hz _].
           right. split; [left; by exists xs, ys|]. intro E. by apply Hz.
      * apply Forall_app in Hf as [Hf Hx]. apply Forall_cons in Hx as [Hx _].
        right. split; [by right|]. intro E. by apply Hx.
Qed.

End UpsertProps.

(* ================================================================= *)
(** * Connection handling of the operations store *)

Module StoreExtraProps.
Import CosmosStore.


(** When [CosmosClient(...)] raises on the first call of an unconnected
    store, the call re-raises it after building only a credential, and
    leaves [_client] at [None]; the next call (with no fault) builds a
    second credential, a client and a container, then issues its one
    query and returns the matching documents. *)
Theorem ctor_fault_retried (c1 c2 : store_call) (w1 w2 : world) (s : store)
    (e : py_exc) :
  s_client s = None -> w_ctor_fault w1 = Some e ->
  w_ctor_fault w2 = None -> w_query_fault w2 = None ->
  let s1 := snd (run_call c1 w1 s) in
  fst (run_call c1 w1 s) = Raise e /\
  s_client s1 = None /\ s_container s1 = s_container s /\
  s_credential s1 = Some (s_next s) /\
  s_trace s1 = ECredential (s_next s) :: s_trace s /\
  exists q,
    run_call c2 w2 s1 =
      (Ok (List.filter (matches q) (w_items w2)),
       Store (s_endpoint s) (s_db_name s) (s_container_name s)
             (Some (S (S (s_next s)))) (Some (S (S (S (s_next s)))))
             (Some (S (s_next s))) (S (S (S (S (s_next s)))))
             (EQuery (S (S (S (s_next s)))) q ::
              EContainer (S (S (S (s_next s)))) ::
              EClient (S (S (s_next s))) :: ECredential (S (s_next s)) ::
              ECredential (s_next s) :: s_trace s)).
Proof.
  intros Hcl He Hc2 Hq2.
  destruct s as [ep db co cl ct cr n tr]; cbn in Hcl; subst cl.
  destruct c1, c2; cbv [run_call get_load_context get_exceptions get_exceptions_by_type]; StoreProps.unfold_M; cbn; rewrite He; cbn;
    (split; [done|]); (split; [done|]); (split; [done|]); (split; [done|]);
    (split; [done|]); rewrite Hc2; cbn; rewrite Hq2; cbn; eexists; reflexivity.
Qed.

(** On a connected store, a method call builds nothing: it issues one
    query to the container it holds, leaves every attribute as it was,
    and returns the matching documents or re-raises the query's failure. *)
Theorem connected_call_one_query (c : store_call) (w : world) (s : store)
    (cl co : nat) :
  s_client s = Some cl -> s_container s = Some co ->
  exists q,
    snd (run_call c w s) =
      Store (s_endpoint s) (s_db_name s) (s_container_name s) (Some cl)
            (Some co) (s_credential s) (s_next s) (EQuery co q :: s_trace s) /\
    fst (run_call c w s) =
      match w_query_fault w with
      | Some e => Raise e
      | None => Ok (List.filter (matches q) (w_items w))
      end.
Proof.
  intros Hcl Hco.
  destruct s as [ep db cn cl' ct cr n tr]; cbn in Hcl, Hco; subst cl' ct.
  destruct c; cbv [run_call get_load_context get_exceptions get_exceptions_by_type]; StoreProps.unfold_M; cbn; eexists;
    destruct (w_query_fault w); cbn; split; reflexivity.
Qed.

End StoreExtraProps.

(* ================================================================= *)
(** * Index creation and upload of the search client *)

Module SearchExtraProps.
Import SearchIndex.

(** [create_index_if_not_exists] for an index not yet listed: a missing
    setting among [AZURE_OPENAI_ENDPOINT], [AZURE_OPENAI_EMBEDDING_DEPLOYMENT]
    and [AZURE_CLIENT_RESOURCE_ID] raises [KeyError] for the first one
    missing in that order, after the listing and before any creation
    request; with all three set the index is created with the schema
    built from them, or the rejection of the service is re-raised and
    no index is added. *)
Theorem create_index_absent (env : string -> option string) (name : string)
    (create_fault : option py_exc) (sv : service) :
  ~ In name (sv_indexes sv) ->
  (forall k, List.find (fun k => match env k with None => true | Some _ => false end)
               ["AZURE_OPENAI_ENDPOINT"; "AZURE_OPENAI_EMBEDDING_DEPLOYMENT";
                "AZURE_CLIENT_RESOURCE_ID"] = Some k ->
     create_index_if_not_exists env name create_fault sv =
       (Raise (PyExc "KeyError" true k), log EListIndexes sv)) /\
  (forall url dep rid,
     env "AZURE_OPENAI_ENDPOINT" = Some url ->
     env "AZURE_OPENAI_EMBEDDING_DEPLOYMENT" = Some dep ->
     env "AZURE_CLIENT_RESOURCE_ID" = Some rid ->
     (create_fault = None ->
        create_index_if_not_exists env name create_fault sv =
          (Ok tt, Service (name :: sv_indexes sv)
                    (ECreateIndex (schema name url dep rid) ::
                     EListIndexes :: sv_trace sv))) /\
     (forall e, create_fault = Some e ->
        create_index_if_not_exists env name create_fault sv =
          (Raise e, Service (sv_indexes sv)
                      (ECreateRejected name :: EListIndexes :: sv_trace sv)))).
Proof.
  intro Hn. unfold create_index_if_not_exists.
  replace (existsb (String.eqb name) (sv_indexes sv)) with false.
  2: { symmetry. apply not_true_iff_false. intro Hx.
       apply existsb_exists in Hx as (x & Hx & Ex).
       apply String.eqb_eq in Ex as <-. done. }
  split.
  - intro k. cbn [List.find]. unfold environ.
    destruct (env "AZURE_OPENAI_ENDPOINT"), (env "AZURE_OPENAI_EMBEDDING_DEPLOYMENT"),
      (env "AZURE_CLIENT_RESOURCE_ID"); cbn; intro Hk; try discriminate Hk;
      injection Hk as <-; reflexivity.
  - intros url dep rid E1 E2 E3. unfold environ. rewrite E1, E2, E3.
    split; [intros ->; reflexivity|intros e ->; reflexivity].
Qed.

Lemma zip_enrich_length (ds : list doc) (vs : list (list float)) :
  length (zip_enrich ds vs) = Nat.min (length ds) (length vs).
Proof.
  revert vs. induction ds as [|d ds IH]; intros [|v vs]; cbn; auto.
Qed.

Lemma zip_enrich_nth (ds : list doc) (vs : list (list float)) (i : nat)
    (d : doc) (v : list float) :
  nth_error ds i = Some d -> nth_error vs i = Some v ->
  nth_error (zip_enrich ds vs) i = Some (enrich d v).
Proof.
  revert ds vs. induction i as [|i IH]; intros [|d' ds] [|v' vs]; cbn;
    try discriminate; [congruence|]. apply IH.
Qed.

(** [upload_documents] on a non-empty list: a failing embedding request
    is re-raised and nothing is uploaded; otherwise the uploaded batch
    pairs the documents with the embeddings as [zip] does, so it has
    [min(len(documents), len(embeddings))] entries and documents without
    an embedding are silently left out; a failing upload is re-raised. *)
Theorem upload_documents_batch (documents : list doc)
    (embed_out : result (list (list float)))
    (upload_out : result (list bool)) (sv : service) :
  documents <> [] ->
  (forall e, embed_out = Raise e ->
     upload_documents documents embed_out upload_out sv =
       (Raise e, log (EEmbed (map d_content documents)) sv)) /\
  (forall embeddings, embed_out = Ok embeddings ->
     exists batch,
       snd (upload_documents documents embed_out upload_out sv) =
         Service (sv_indexes sv)
           (EUpload batch :: EEmbed (map d_content documents) :: sv_trace sv) /\
       length batch = Nat.min (length documents) (length embeddings) /\
       (forall i d v, nth_error documents i = Some d ->
          nth_error embeddings i = Some v ->
          nth_error batch i = Some (enrich d v)) /\
       (forall e, upload_out = Raise e ->
          fst (upload_documents documents embed_out upload_out sv) = Raise e)).
Proof.
  intro Hne. destruct documents as [|d ds]; [done|]. split.
  - intros e ->. reflexivity.
  - intros embeddings ->. exists (zip_enrich (d :: ds) embeddings).
    split; [|split; [|split]].
    + cbn. by destruct upload_out as [r|e]; [destruct (List.filter negb r)|].
    + apply zip_enrich_length.
    + intros i d' v. apply zip_enrich_nth.
    + intros e ->. reflexivity.
Qed.

End SearchExtraProps.

(* ================================================================= *)
(** * Constructors of the data generator's clients *)

Module InitProps.
Import SearchIndex SearchClients.

(** [TruckingSearchIndex()]: an unset [SEARCH_ENDPOINT], [SEARCH_INDEX]
    or [SEARCH_API_KEY] raises [KeyError] for the first one unset, before
    any SDK object is built; with SDK constructors that do not raise, the
    result is [KeyError] for the first unset of the six settings in the
    order the code reads them, and otherwise an object holding exactly
    the six values (empty strings included). *)
Theorem search_index_init_env (env : string -> option string)
    (sdk_fault : string -> option py_exc) :
  (forall k, List.find (fun k => match env k with None => true | Some _ => false end)
               ["SEARCH_ENDPOINT"; "SEARCH_INDEX"; "SEARCH_API_KEY"] = Some k ->
     TruckingSearchIndex_init env sdk_fault = Raise (PyExc "KeyError" true k)) /\
  ((forall c, sdk_fault c = None) ->
   forall k, List.find (fun k => match env k with None => true | Some _ => false end)
               ["SEARCH_ENDPOINT"; "SEARCH_INDEX"; "SEARCH_API_KEY";
                "AZURE_OPENAI_ENDPOINT"; "AZURE_OPENAI_API_KEY";
                "AZURE_OPENAI_EMBEDDING_DEPLOYMENT"] = Some k ->
     TruckingSearchIndex_init env sdk_fault = Raise (PyExc "KeyError" true k)) /\
  ((forall c, sdk_fault c = None) ->
   forall ep ix key aep akey dep,
     env "SEARCH_ENDPOINT" = Some ep -> env "SEARCH_INDEX" = Some ix ->
     env "SEARCH_API_KEY" = Some key -> env "AZURE_OPENAI_ENDPOINT" = Some aep ->
     env "AZURE_OPENAI_API_KEY" = Some akey ->
     env "AZURE_OPENAI_EMBEDDING_DEPLOYMENT" = Some dep ->
     TruckingSearchIndex_init env sdk_fault =
       Ok (TruckingSearchIndex ep ix key (EmbeddingClient aep akey dep))).
Proof.
  split; [|split].
  - intro k. cbn [List.find].
    unfold TruckingSearchIndex_init, environ, mbind, result_bind.
    destruct (env "SEARCH_ENDPOINT"), (env "SEARCH_INDEX"),
      (env "SEARCH_API_KEY"); cbn; intro Hk; try discriminate Hk;
      injection Hk as <-; reflexivity.
  - intros Hs k. cbn [List.find].
    unfold TruckingSearchIndex_init, EmbeddingClient_init, environ, sdk_call,
      mbind, result_bind. rewrite !Hs.
    destruct (env "SEARCH_ENDPOINT"), (env "SEARCH_INDEX"),
      (env "SEARCH_API_KEY"), (env "AZURE_OPENAI_ENDPOINT"),
      (env "AZURE_OPENAI_API_KEY"), (env "AZURE_OPENAI_EMBEDDING_DEPLOYMENT");
      cbn; intro Hk; try discriminate Hk; injection Hk as <-; reflexivity.
  - intros Hs ep ix key aep akey dep E1 E2 E3 E4 E5 E6.
    unfold TruckingSearchIndex_init, EmbeddingClient_init, environ, sdk_call,
      mbind, result_bind. rewrite !Hs, E1, E2, E3, E4, E5, E6. reflexivity.
Qed.

(** [CosmosStore()] of the data generator: an unset [COSMOS_ENDPOINT],
    [COSMOS_DATABASE] or [COSMOS_CONTAINER] raises [KeyError] for the
    first one unset, before any SDK call; with all three set (empty
    strings included) the first raising SDK step, in the order
    [DefaultAzureCredential], [CosmosClient], database, container, is
    re-raised, and otherwise the object holds the three values. *)
Theorem cosmos_store_init_env (env : string -> option string)
    (sdk_fault : string -> option py_exc) :
  (forall k, List.find (fun k => match env k with None => true | Some _ => false end)
               ["COSMOS_ENDPOINT"; "COSMOS_DATABASE"; "COSMOS_CONTAINER"] = Some k ->
     DataCosmos.__init__ env sdk_fault = Raise (PyExc "KeyError" true k)) /\
  (forall ep db co,
     env "COSMOS_ENDPOINT" = Some ep -> env "COSMOS_DATABASE" = Some db ->
     env "COSMOS_CONTAINER" = Some co ->
     DataCosmos.__init__ env sdk_fault =
       match List.find (fun c => match sdk_fault c with None => false | Some _ => true end)
               ["DefaultAzureCredential"; "CosmosClient";
                "create_database_if_not_exists";
                "create_container_if_not_exists"] with
       | Some c => match sdk_fault c with
                   | Some e => Raise e
                   | None => Ok (DataCosmos.CosmosStoreObj ep db co)
                   end
       | None => Ok (DataCosmos.CosmosStoreObj ep db co)
       end).
Proof.
  split.
  - intro k. cbn [List.find].
    unfold DataCosmos.__init__, environ, mbind, DataCosmos.result_bind.
    destruct (env "COSMOS_ENDPOINT"), (env "COSMOS_DATABASE"),
      (env "COSMOS_CONTAINER"); cbn; intro Hk; try discriminate Hk;
      injection Hk as <-; reflexivity.
  - intros ep db co E1 E2 E3. cbn [List.find].
    unfold DataCosmos.__init__, environ, sdk_call, mbind, DataCosmos.result_bind,
      mret, DataCosmos.result_ret.
    rewrite E1, E2, E3.
    destruct (sdk_fault "DefaultAzureCredential") eqn:F1,
      (sdk_fault "CosmosClient") eqn:F2,
      (sdk_fault "create_database_if_not_exists") eqn:F3,
      (sdk_fault "create_container_if_not_exists") eqn:F4; cbn;
      rewrite ?F1, ?F2, ?F3, ?F4; reflexivity.
Qed.

End InitProps.

(* ================================================================= *)
(** * Instances of the properties above *)

Module ExtraScenario.
Import SearchIndex Generator Fixtures.

Lemma lcg_randbelow_in_range : @randbelow_in_range N lcg_random.
Proof. intros st n Hn. cbn. apply N.mod_lt. lia. Qed.

Lemma main_fx_not_raise (e : py_exc) (st' : N) :
  main_generate iso_fx 0%Z 42%N <> (Raise e, st').
Proof.
  intro E.
  assert (Hok : match main_generate iso_fx 0%Z 42%N with
                | (Ok _, _) => True | _ => False end) by (vm_compute; exact I).
  rewrite E in Hok. exact Hok.
Qed.

Lemma generate_loads_ids_witness :
  exists loads st',
    generate_loads iso_fx 3 0%Z 42%N = (Ok loads, st') /\
    map l_load_id loads = ["L-7000"; "L-7001"; "L-7002"] /\
    NoDup (map l_load_id loads).
Proof.
  destruct (generate_loads iso_fx 3 0%Z 42%N) as [[loads|e] st'] eqn:E.
  - exists loads, st'. split; [reflexivity|].
    exact (GeneratorProps.generate_loads_ids iso_fx 3 0%Z 42%N st' loads E).
  - vm_compute in E. discriminate E.
Defined.


Lemma generate_trucks_drivers_fields_witness :
  @randbelow_in_range N lcg_random /\
  exists trucks st', generate_trucks 2 42%N = (Ok trucks, st') /\
    length trucks = 2.
Proof.
  split; [exact lcg_randbelow_in_range|].
  destruct (proj1 (GeneratorProps.generate_trucks_drivers_fields 2 3 42%N 7%N
              lcg_randbelow_in_range)) as (trucks & st' & E & HF).
  exists trucks, st'. split; [exact E|].
  rewrite <- (Forall2_length _ _ _ HF). reflexivity.
Defined.

Lemma main_store_ids_distinct_witness :
  exists d st', main_generate iso_fx 0%Z 42%N = (Ok d, st') /\
    main_upserts d [] = main_records d /\
    NoDup (map (fun r : record => r !! "id") (main_records d)).
Proof.
  destruct (main_generate iso_fx 0%Z 42%N) as [[d|e] st'] eqn:E.
  - exists d, st'. split; [reflexivity|].
    exact (GeneratorProps.main_store_ids_distinct iso_fx 0%Z 42%N st' d E).
  - exfalso. revert E. apply main_fx_not_raise.
Defined.

Lemma main_counts_witness :
  exists d st', main_generate iso_fx 0%Z 42%N = (Ok d, st') /\
    length (m_loads d) = 501 /\ length (m_dispatch d) = 500.
Proof.
  destruct (main_generate iso_fx 0%Z 42%N) as [[d|e] st'] eqn:E.
  - exists d, st'. split; [reflexivity|].
    destruct (GeneratorProps.main_counts iso_fx 0%Z 42%N st' d E)
      as (_ & _ & HL & HD & _). by split.
  - exfalso. revert E. apply main_fx_not_raise.
Defined.

Lemma main_anchor_retrievable_witness :
  CosmosStore.store_wf s_fresh /\
  exists d st', main_generate iso_fx 0%Z 42%N = (Ok d, st') /\
    fst (CosmosStore.get_exceptions
           (CosmosStore.World (main_upserts d []) None None) "L-7712" s_fresh) =
      Ok [exception_to_record anchor_exception].
Proof.
  assert (Hwf : CosmosStore.store_wf s_fresh) by (intro Hc; contradiction Hc; reflexivity).
  split; [exact Hwf|].
  destruct (main_generate iso_fx 0%Z 42%N) as [[d|e] st'] eqn:E.
  - exists d, st'. split; [reflexivity|].
    exact (proj2 (GeneratorProps.main_anchor_retrievable iso_fx 0%Z 42%N st' d
                    s_fresh E Hwf)).
  - exfalso. revert E. apply main_fx_not_raise.
Defined.


Lemma upsert_items_last_write_wins_witness :
  NoDup (map (fun r : record => (r !! "id", r !! "load_id")) [load_7712]) /\
  NoDup (map (fun r : record => (r !! "id", r !! "load_id"))
           (DataCosmos.upsert_items [load_7712]
              [dispatch_7712; load_7712; exception_7712])).
Proof.
  assert (Hn : NoDup (map (fun r : record => (r !! "id", r !! "load_id"))
                        [load_7712])) by apply NoDup_singleton.
  split; [exact Hn|].
  exact (proj1 (UpsertProps.upsert_items_last_write_wins [load_7712]
                  [dispatch_7712; load_7712; exception_7712] Hn)).
Defined.

Lemma ctor_fault_retried_witness :
  CosmosStore.s_client s_fresh = None /\
  CosmosStore.w_ctor_fault w_ctor_down =
    Some (PyExc "ClientAuthenticationError" true "no credential") /\
  fst (CosmosStore.run_call (CosmosStore.CLoadContext "L-7712") w_ctor_down
         s_fresh) =
    Raise (PyExc "ClientAuthenticationError" true "no credential").
Proof.
  split; [reflexivity|]. split; [reflexivity|].
  exact (proj1 (StoreExtraProps.ctor_fault_retried
    (CosmosStore.CLoadContext "L-7712") (CosmosStore.CExceptions "L-7712")
    w_ctor_down w_seeded s_fresh _ eq_refl eq_refl eq_refl eq_refl)).
Defined.

Lemma connected_call_one_query_witness :
  let s1 := snd (CosmosStore.run_call (CosmosStore.CLoadContext "L-7712")
                   w_seeded s_fresh) in
  CosmosStore.s_client s1 = Some 1 /\ CosmosStore.s_container s1 = Some 2 /\
  exists q, fst (CosmosStore.run_call (CosmosStore.CExceptions "L-7712")
                   w_seeded s1) =
            Ok (List.filter (CosmosStore.matches q) (CosmosStore.w_items w_seeded)).
Proof.
  intro s1.
  assert (H1 : CosmosStore.s_client s1 = Some 1) by (vm_compute; reflexivity).
  assert (H2 : CosmosStore.s_container s1 = Some 2) by (vm_compute; reflexivity).
  split; [exact H1|]. split; [exact H2|].
  destruct (StoreExtraProps.connected_call_one_query
              (CosmosStore.CExceptions "L-7712") w_seeded s1 1 2 H1 H2)
    as (q & _ & Hq). exists q. exact Hq.
Defined.

Lemma create_index_absent_witness :
  ~ In "trucking-docs" (sv_indexes (Service [] [])) /\
  create_index_if_not_exists (fun _ => None) "trucking-docs" None
    (Service [] []) =
    (Raise (PyExc "KeyError" true "AZURE_OPENAI_ENDPOINT"),
     log EListIndexes (Service [] [])).
Proof.
  assert (Hn : ~ In "trucking-docs" (sv_indexes (Service [] [])))
    by (cbn; tauto).
  split; [exact Hn|].
  exact (proj1 (SearchExtraProps.create_index_absent (fun _ => None)
                  "trucking-docs" None (Service [] []) Hn)
               "AZURE_OPENAI_ENDPOINT" eq_refl).
Defined.

Lemma upload_documents_batch_witness :
  generate_anchor_documents <> [] /\
  exists batch,
    snd (upload_documents generate_anchor_documents (Ok [[Float 0]])
           (Ok [true]) (Service [] [])) =
      Service [] [EUpload batch;
                  EEmbed (map d_content generate_anchor_documents)] /\
    length batch = 1.
Proof.
  assert (Hne : generate_anchor_documents <> []) by discriminate.
  split; [exact Hne|].
  destruct (proj2 (SearchExtraProps.upload_documents_batch
                     generate_anchor_documents (Ok [[Float 0]]) (Ok [true])
                     (Service [] []) Hne) [[Float 0]] eq_refl)
    as (batch & Hsv & Hlen & _ & _).
  exists batch. split; [exact Hsv|exact Hlen].
Defined.

End ExtraScenario.
